(** * Task-Manager front end: session and task state controller

    A shallow embedding of the React client under [frontend/src]:
    - [types.ts]                  -> module [Types]
    - [components/TaskList.tsx]   -> module [TaskList]
    - [components/AuthForm.tsx]   -> module [AuthForm]
    - [App.tsx]                   -> module [App]
    [components/TaskForm.tsx] is not embedded: what it submits enters [App]
    as the payload of [handleFormSubmit].

    Conventions of the embedding.
    - A component's [useState] cells are the fields of a record; a setter
      [setX v] is the absolute write of field [X].
    - An [async] handler is a resumption: it runs up to its next [fetch],
      where it is suspended with the state it has written so far, and is
      resumed with the outcome of the request (module [Async]).  [try],
      [catch] and [finally] are the combinators of that monad; an early
      [return] inside [try] is the corresponding branch of a conditional.
    - Values follow the declared TypeScript types; the unchecked reading
      [const data: T = await response.json()] is a parameter ([Casts]). *)

From Stdlib Require Import List String Ascii ZArith Bool Lia Permutation DecimalString.
Import ListNotations.
Open Scope string_scope.
Open Scope Z_scope.
Set Warnings "-register-all".

(* ------------------------------------------------------------------ *)
(** ** JavaScript values the client observes *)

Module Js.

(** Strings are sequences of 8-bit code units (the Latin-1 range of UTF-16).
    [String.prototype.trim] strips WhiteSpace and LineTerminator code points;
    in this range they are TAB, LF, VT, FF, CR, SP and NBSP. *)
Definition isWhiteSpace (c : ascii) : bool :=
  let n := nat_of_ascii c in
  ((9 <=? n)%nat && (n <=? 13)%nat) || (n =? 32)%nat || (n =? 160)%nat.

Fixpoint trimStart (s : string) : string :=
  match s with
  | EmptyString => EmptyString
  | String c rest => if isWhiteSpace c then trimStart rest else s
  end.

Fixpoint trimEnd (s : string) : string :=
  match s with
  | EmptyString => EmptyString
  | String c rest =>
      match trimEnd rest with
      | EmptyString => if isWhiteSpace c then EmptyString else String c EmptyString
      | kept => String c kept
      end
  end.

Definition trim (s : string) : string := trimEnd (trimStart s).

(** Truthiness of a string: [!s] is true exactly for the empty string. *)
Definition nonEmpty (s : string) : bool :=
  match s with EmptyString => false | String _ _ => true end.

(** Decimal numeral of an integer, as a template literal prints a status
    code or a task id. *)
Definition decimal (z : Z) : string := NilZero.string_of_int (Z.to_int z).

(** A value produced by [JSON.parse].  Numbers are the integer-valued ones
    (identifiers, counts); an object keeps its members in source order. *)
Inductive JSON : Type :=
| JNull
| JBool (b : bool)
| JNum (n : Z)
| JStr (s : string)
| JArr (items : list JSON)
| JObj (members : list (string * JSON)).

(** Member lookup in a parsed object: a repeated key keeps its last value. *)
Fixpoint member (k : string) (ms : list (string * JSON)) : option JSON :=
  match ms with
  | [] => None
  | (k', v) :: rest =>
      match member k rest with
      | Some later => Some later
      | None => if String.eqb k k' then Some v else None
      end
  end.

(** [v?.k] for the keys the client reads ([errors], [message], [msg],
    [user]):
    an own member of an object; [undefined] ([None]) on [null], on
    primitives and on arrays. *)
Definition optProp (v : JSON) (k : string) : option JSON :=
  match v with
  | JObj ms => member k ms
  | _ => None
  end.

(** [Boolean(v)]; [None] stands for [undefined]. *)
Definition truthy (v : option JSON) : bool :=
  match v with
  | None => false
  | Some JNull => false
  | Some (JBool b) => b
  | Some (JNum n) => negb (n =? 0)
  | Some (JStr s) => nonEmpty s
  | Some (JArr _) => true
  | Some (JObj _) => true
  end.

(** The largest integer a double holds exactly together with all smaller
    ones ([Number.MAX_SAFE_INTEGER]). *)
Definition maxSafeInteger : Z := 9007199254740991.

(** [Number::toString] of an integer: its decimal numeral within the safe
    integers; beyond them the digits the engine prints ([big]), which
    depend on how the double rounds. *)
Definition numeral (big : Z -> string) (n : Z) : string :=
  if Z.abs n <=? maxSafeInteger then decimal n else big n.

Definition isNull (v : JSON) : bool :=
  match v with JNull => true | _ => false end.

(** [ToString(v)] as [Array.prototype.join] applies it to an element;
    [None] where it throws a [TypeError].  An array prints through
    [Array.prototype.toString], its elements joined with a comma, [null]
    as the empty string.  An object prints through [Object.prototype.toString]
    unless it has a member [toString] of its own: a parsed member is never
    callable, so neither it nor [valueOf] yields a primitive and the
    conversion throws. *)
Fixpoint toString (big : Z -> string) (v : JSON) : option string :=
  match v with
  | JNull => Some "null"
  | JBool true => Some "true"
  | JBool false => Some "false"
  | JNum n => Some (numeral big n)
  | JStr s => Some s
  | JArr items =>
      option_map (String.concat ",")
        ((fix each (l : list JSON) : option (list string) :=
            match l with
            | [] => Some []
            | x :: rest =>
                match (if isNull x then Some "" else toString big x), each rest with
                | Some t, Some ts => Some (t :: ts)
                | _, _ => None
                end
            end) items)
  | JObj members =>
      match member "toString" members with
      | Some _ => None
      | None => Some "[object Object]"
      end
  end.

(** One element of [Array.prototype.join]: [undefined] and [null] print as
    the empty string. *)
Definition joinItem (big : Z -> string) (v : option JSON) : option string :=
  match v with
  | None => Some ""
  | Some x => if isNull x then Some "" else toString big x
  end.

(** The elements converted left to right, [None] if one of them throws. *)
Fixpoint joinItems (big : Z -> string) (l : list (option JSON)) : option (list string) :=
  match l with
  | [] => Some []
  | v :: rest =>
      match joinItem big v, joinItems big rest with
      | Some t, Some ts => Some (t :: ts)
      | _, _ => None
      end
  end.

(** [l.join(sep)] *)
Definition join (big : Z -> string) (sep : string) (l : list (option JSON))
  : option string :=
  option_map (String.concat sep) (joinItems big l).

(** The [TypeError]s the client can run into; their messages are the
    engine's. *)
Inductive TypeErrorCause : Type :=
| NullRead (property : string)
| NotPrimitive.

(** What a [catch] clause can receive: an [Error] instance with its
    [message], or any other thrown value. *)
Inductive Thrown : Type :=
| ErrorObj (message : string)
| NonError.

(** [err instanceof Error ? err.message : fallback] *)
Definition messageOr (fallback : string) (err : Thrown) : string :=
  match err with
  | ErrorObj m => m
  | NonError => fallback
  end.

End Js.
Import Js.

(* ------------------------------------------------------------------ *)
(** ** [types.ts] *)

Module Types.

Record User : Type := mkUser {
  user_id : Z;
  user_name : string;
  user_email : string;
  user_createdAt : option string;
  user_updatedAt : option string
}.

Inductive TaskStatus : Type := todo | in_progress | done.

Definition TaskStatus_eqb (a b : TaskStatus) : bool :=
  match a, b with
  | todo, todo | in_progress, in_progress | done, done => true
  | _, _ => false
  end.

(** The string a status is on the wire. *)
Definition statusName (s : TaskStatus) : string :=
  match s with
  | todo => "todo"
  | in_progress => "in_progress"
  | done => "done"
  end.

Record Task : Type := mkTask {
  id : Z;
  title : string;
  description : option string;
  status : TaskStatus;
  userId : option Z;
  assignee : option User;
  createdAt : string;
  updatedAt : string
}.

(** [description?: string | null]: absent, [null] or a string. *)
Inductive OptNull (A : Type) : Type :=
| Absent
| Null
| Present (a : A).
Arguments Absent {A}.
Arguments Null {A}.
Arguments Present {A} a.

Record TaskPayload : Type := mkTaskPayload {
  p_title : string;
  p_description : OptNull string;
  p_userId : option Z;
  p_status : option TaskStatus
}.

Record AuthResponse : Type := mkAuthResponse { user : User }.

End Types.
Import Types.

(* ------------------------------------------------------------------ *)
(** ** The network as the client sees it *)

Module Net.

Inductive Method : Type := GET | POST | PUT | PATCH | DELETE.

(** A [fetch] call.  Every call of the client passes
    [credentials: 'include']; calls with a body send it as JSON. *)
Record Request : Type := mkRequest {
  method : Method;
  url : string;
  body : option JSON
}.

(** Result of [response.json()]: the promise rejects or yields a value. *)
Inductive JsonResult : Type :=
| Unparsable (e : Thrown)
| Parsed (j : JSON).

Record Response : Type := mkResponse {
  status : Z;
  statusText : string;
  json : JsonResult
}.

(** [response.ok] *)
Definition ok (r : Response) : bool := (200 <=? status r) && (status r <=? 299).

(** A [fetch] promise either rejects (network failure) or resolves. *)
Inductive FetchOutcome : Type :=
| Rejected (e : Thrown)
| Resolved (r : Response).

End Net.
Import Net.

(* ------------------------------------------------------------------ *)
(** ** Asynchronous handlers as resumptions *)

Module Async.

(** A handler that has run as far as it can on state [St]: it returned,
    threw, or is suspended in [fetch rq] with continuation [k].  The
    continuation receives the outcome and the state current at resumption. *)
Inductive Proc (St A : Type) : Type :=
| Ret (a : A) (s : St)
| Raise (e : Thrown) (s : St)
| Await (rq : Request) (s : St) (k : FetchOutcome -> St -> Proc St A).
Arguments Ret {St A} a s.
Arguments Raise {St A} e s.
Arguments Await {St A} rq s k.

Definition M (St A : Type) : Type := St -> Proc St A.

Definition ret {St A} (a : A) : M St A := fun s => Ret a s.

Definition throw {St A} (e : Thrown) : M St A := fun s => Raise e s.

Fixpoint bindP {St A B} (p : Proc St A) (f : A -> M St B) : Proc St B :=
  match p with
  | Ret a s => f a s
  | Raise e s => Raise e s
  | Await rq s k => Await rq s (fun o s' => bindP (k o s') f)
  end.

Definition bind {St A B} (m : M St A) (f : A -> M St B) : M St B :=
  fun s => bindP (m s) f.

(** [try { m } catch (err) { h err }] *)
Fixpoint catchP {St A} (p : Proc St A) (h : Thrown -> M St A) : Proc St A :=
  match p with
  | Ret a s => Ret a s
  | Raise e s => h e s
  | Await rq s k => Await rq s (fun o s' => catchP (k o s') h)
  end.

Definition try_catch {St A} (m : M St A) (h : Thrown -> M St A) : M St A :=
  fun s => catchP (m s) h.

(** [try { m } finally { fin }]: [fin] runs on every exit of [m]; a throw
    of [m] is rethrown after it. *)
Definition try_finally {St A} (m : M St A) (fin : M St unit) : M St A :=
  bind (try_catch (bind m (fun a => ret (inr a))) (fun e => ret (inl e)))
       (fun r => bind fin (fun _ =>
                   match r with
                   | inl e => throw e
                   | inr a => ret a
                   end)).

Definition get {St} : M St St := fun s => Ret s s.

(** A state setter. *)
Definition modify {St} (f : St -> St) : M St unit := fun s => Ret tt (f s).

(** [await fetch(rq)] *)
Definition fetch {St} (rq : Request) : M St Response :=
  fun s => Await rq s (fun o s' =>
                         match o with
                         | Rejected e => Raise e s'
                         | Resolved r => Ret r s'
                         end).

(** [await response.json()] *)
Definition readJson {St} (r : Response) : M St JSON :=
  match json r with
  | Unparsable e => throw e
  | Parsed j => ret j
  end.

(** Run a handler written for a component's state [T] inside a larger
    state [St]. *)
Fixpoint zoomP {St T A} (proj : St -> T) (upd : T -> St -> St)
         (p : Proc T A) (s : St) : Proc St A :=
  match p with
  | Ret a t => Ret a (upd t s)
  | Raise e t => Raise e (upd t s)
  | Await rq t k =>
      Await rq (upd t s) (fun o s' => zoomP proj upd (k o (proj s')) s')
  end.

Definition zoom {St T A} (proj : St -> T) (upd : T -> St -> St) (m : M T A) : M St A :=
  fun s => zoomP proj upd (m (proj s)) s.

(** [xs.map(f)] for an [f] that may throw: left to right, stopping at the
    first throw. *)
Fixpoint mapM {St A B} (f : A -> M St B) (xs : list A) : M St (list B) :=
  match xs with
  | [] => ret []
  | x :: rest =>
      bind (f x) (fun y => bind (mapM f rest) (fun ys => ret (y :: ys)))
  end.

(** The state a suspended handler has published while its request is in
    flight, and the request itself. *)
Definition inFlight {St A} (p : Proc St A) : option (Request * St) :=
  match p with
  | Await rq s _ => Some (rq, s)
  | _ => None
  end.

(** A suspended handler resumed with the outcome of its request in the
    state current at that time, which other handlers may have written
    since the suspension. *)
Definition resume {St A} (p : Proc St A) (o : FetchOutcome) (s : St) : Proc St A :=
  match p with
  | Await _ _ k => k o s
  | _ => p
  end.

(** How a handler ended. *)
Inductive Completion (A : Type) : Type :=
| Returned (a : A)
| Threw (e : Thrown).
Arguments Returned {A} a.
Arguments Threw {A} e.

Record Run (St A : Type) : Type := mkRun {
  result : Completion A;
  final : St;
  requests : list (Request * FetchOutcome)
}.
Arguments mkRun {St A}.
Arguments result {St A}.
Arguments final {St A}.
Arguments requests {St A}.

(** Drive a handler to completion with no other handler interleaved.  The
    server is [net]: the outcome of the [n]-th request of the run. *)
Fixpoint runFrom {St A} (net : nat -> Request -> FetchOutcome) (n : nat)
         (p : Proc St A) : Run St A :=
  match p with
  | Ret a s => mkRun (Returned a) s []
  | Raise e s => mkRun (Threw e) s []
  | Await rq s k =>
      let o := net n rq in
      let r := runFrom net (S n) (k o s) in
      mkRun (result r) (final r) ((rq, o) :: requests r)
  end.

Definition run {St A} (net : nat -> Request -> FetchOutcome) (m : M St A) (s : St) : Run St A :=
  runFrom net 0%nat (m s).

(** The operations unfold once they are applied to a state. *)
Arguments ret {St A} a s /.
Arguments throw {St A} e s /.
Arguments bind {St A B} m f s /.
Arguments try_catch {St A} m h s /.
Arguments try_finally {St A} m fin s /.
Arguments get {St} s /.
Arguments modify {St} f s /.
Arguments fetch {St} rq s /.
Arguments readJson {St} r s /.
Arguments zoom {St T A} proj upd m s /.
Arguments run {St A} net m s /.

End Async.
Import Async.

Declare Scope async_scope.
Delimit Scope async_scope with async.
Notation "x <- c1 ;; c2" := (bind c1 (fun x => c2))
  (at level 61, c1 at next level, right associativity) : async_scope.
Notation "c1 ;; c2" := (bind c1 (fun _ => c2))
  (at level 61, right associativity) : async_scope.
Open Scope async_scope.

(* ------------------------------------------------------------------ *)
(** ** [components/TaskList.tsx] *)

Module TaskList.

(** ['all' | TaskStatus] *)
Inductive TaskListFilter : Type :=
| all
| only (s : TaskStatus).

Definition TaskListFilter_eqb (a b : TaskListFilter) : bool :=
  match a, b with
  | all, all => true
  | only x, only y => TaskStatus_eqb x y
  | _, _ => false
  end.

Record Action : Type := mkAction { label : string; nextStatus : TaskStatus }.

Record Column : Type := mkColumn {
  key : TaskStatus;
  title : string;
  accent : string;
  matcher : Task -> bool;
  actions : list Action
}.

Definition columns : list Column :=
  [ mkColumn todo "To Do" "#f97316"
      (fun task => TaskStatus_eqb (Types.status task) todo)
      [ mkAction "Mark in progress" in_progress ];
    mkColumn in_progress "In Progress" "#3b82f6"
      (fun task => TaskStatus_eqb (Types.status task) in_progress)
      [ mkAction "Mark completed" done; mkAction "Move to To Do" todo ];
    mkColumn done "Done" "#10b981"
      (fun task => TaskStatus_eqb (Types.status task) done)
      [ mkAction "Reopen" in_progress ] ].

(** [busyTaskId === task.id] with [busyTaskId : number | null] *)
Definition isBusyFor (busyTaskId : option Z) (task : Task) : bool :=
  match busyTaskId with
  | Some b => b =? id task
  | None => false
  end.

(** What the component renders: one card per task of a column, with the
    buttons it offers and whether they are disabled. *)
Record Card : Type := mkCard {
  card_task : Task;
  assignedLabel : string;
  isBusy : bool;
  card_actions : list Action
}.

Record BoardColumn : Type := mkBoardColumn {
  column : Column;
  muted : bool;
  columnTasks : list Task;
  count : nat;
  cards : list Card
}.

Record Board : Type := mkBoard {
  hasTasks : bool;
  boardColumns : list BoardColumn
}.

Definition TaskList (tasks : list Task) (activeFilter : TaskListFilter)
           (busyTaskId : option Z) : Board :=
  let hasTasks := (0 <? List.length tasks)%nat in
  mkBoard hasTasks
    (map (fun column =>
            let columnTasks := filter (matcher column) tasks in
            let muted := negb (TaskListFilter_eqb activeFilter all)
                         && negb (TaskListFilter_eqb activeFilter (only (key column))) in
            mkBoardColumn column muted columnTasks (List.length columnTasks)
              (map (fun task =>
                      let assignedLabel :=
                        match assignee task with
                        | Some u => user_name u
                        | None => "Unassigned"
                        end in
                      mkCard task assignedLabel (isBusyFor busyTaskId task)
                             (actions column))
                   columnTasks))
         columns).

End TaskList.

(* ------------------------------------------------------------------ *)
(** ** [components/AuthForm.tsx] *)

Module AuthForm.

Inductive AuthMode : Type := login | register.

Definition AuthMode_eqb (a b : AuthMode) : bool :=
  match a, b with
  | login, login | register, register => true
  | _, _ => false
  end.

Record LoginData : Type := mkLoginData {
  email : string;
  password : string
}.

Record RegisterData : Type := mkRegisterData {
  reg_name : string;
  reg_email : string;
  reg_password : string;
  reg_confirmPassword : string
}.

(** The component's own [useState] cells. *)
Record State : Type := mkState {
  loginData : LoginData;
  registerData : RegisterData;
  localError : option string
}.

Definition initialState : State :=
  mkState (mkLoginData "" "") (mkRegisterData "" "" "" "") None.

Definition setLoginData (v : LoginData) (s : State) : State :=
  mkState v (registerData s) (localError s).
Definition setRegisterData (v : RegisterData) (s : State) : State :=
  mkState (loginData s) v (localError s).
Definition setLocalError (v : option string) (s : State) : State :=
  mkState (loginData s) (registerData s) v.

Section Component.

(** [P] is the state of the parent that supplies the callbacks. *)
Context {P : Type}.

Record AuthFormProps : Type := mkProps {
  mode : AuthMode;
  onModeChange : AuthMode -> M P unit;
  onLogin : LoginData -> M P unit;
  onRegister : RegisterData -> M P unit;
  isSubmitting : bool;
  error : option string;
  isLoading : bool;
  onClearError : M P unit
}.

Variable props : AuthFormProps.

(** A setter of the component, and a callback of the parent, on the joint
    state. *)
Definition own (f : State -> State) : M (State * P) unit :=
  modify (fun w => (f (fst w), snd w)).

Definition parent {A} (m : M P A) : M (State * P) A :=
  zoom snd (fun p w => (fst w, p)) m.

(** [localError || error] *)
Definition activeError (s : State) : option string :=
  match localError s with
  | Some e => if nonEmpty e then Some e else error props
  | None => error props
  end.

Definition handleModeToggle (nextMode : AuthMode) : M (State * P) unit :=
  parent (onClearError props) ;;
  if negb (AuthMode_eqb nextMode (mode props)) then
    own (setLocalError None) ;;
    (match nextMode with
     | login => own (setRegisterData (mkRegisterData "" "" "" ""))
     | register => own (setLoginData (mkLoginData "" ""))
     end) ;;
    parent (onModeChange props nextMode)
  else ret tt.

(** [loginData] and [registerData] are the values of the render the
    handler was created in: the state at the time of the submit event. *)
Definition handleSubmit : M (State * P) unit :=
  rendered <- get ;;
  let loginData := loginData (fst rendered) in
  let registerData := registerData (fst rendered) in
  if isSubmitting props || isLoading props then ret tt
  else
    parent (onClearError props) ;;
    own (setLocalError None) ;;
    match mode props with
    | login =>
        let trimmed := mkLoginData (trim (email loginData)) (password loginData) in
        if negb (nonEmpty (email trimmed)) || negb (nonEmpty (password trimmed)) then
          own (setLocalError (Some "Enter your email and password."))
        else
          parent (onLogin props trimmed)
    | register =>
        let trimmed := mkRegisterData (trim (reg_name registerData))
                                      (trim (reg_email registerData))
                                      (reg_password registerData)
                                      (reg_confirmPassword registerData) in
        if negb (nonEmpty (reg_name trimmed)) || negb (nonEmpty (reg_email trimmed))
           || negb (nonEmpty (reg_password trimmed)) then
          own (setLocalError (Some "Complete all fields to continue."))
        else if (String.length (reg_password trimmed) <? 6)%nat then
          own (setLocalError (Some "Password must be at least 6 characters."))
        else if negb (String.eqb (reg_password trimmed) (reg_confirmPassword trimmed)) then
          own (setLocalError (Some "Passwords do not match."))
        else
          parent (onRegister props trimmed)
    end.

(** [onChange] of the e-mail and password inputs. *)
Definition changeEmail (value : string) : M (State * P) unit :=
  parent (onClearError props) ;;
  match mode props with
  | login =>
      modify (fun w => (setLoginData (mkLoginData value (password (AuthForm.loginData (fst w)))) (fst w), snd w))
  | register =>
      modify (fun w =>
                let current := AuthForm.registerData (fst w) in
                (setRegisterData (mkRegisterData (reg_name current) value
                                                 (reg_password current)
                                                 (reg_confirmPassword current)) (fst w),
                 snd w))
  end.

Definition changePassword (value : string) : M (State * P) unit :=
  parent (onClearError props) ;;
  match mode props with
  | login =>
      modify (fun w => (setLoginData (mkLoginData (email (AuthForm.loginData (fst w))) value) (fst w), snd w))
  | register =>
      modify (fun w =>
                let current := AuthForm.registerData (fst w) in
                (setRegisterData (mkRegisterData (reg_name current) (reg_email current)
                                                 value
                                                 (reg_confirmPassword current)) (fst w),
                 snd w))
  end.

(** [onChange] of the name and confirmation inputs, which only the
    register form shows. *)
Definition changeName (value : string) : M (State * P) unit :=
  parent (onClearError props) ;;
  modify (fun w =>
            let current := AuthForm.registerData (fst w) in
            (setRegisterData (mkRegisterData value (reg_email current)
                                             (reg_password current)
                                             (reg_confirmPassword current)) (fst w),
             snd w)).

Definition changeConfirmPassword (value : string) : M (State * P) unit :=
  parent (onClearError props) ;;
  modify (fun w =>
            let current := AuthForm.registerData (fst w) in
            (setRegisterData (mkRegisterData (reg_name current) (reg_email current)
                                             (reg_password current) value) (fst w),
             snd w)).

End Component.
Arguments AuthFormProps P : clear implicits.
Arguments own {P} f s /.
Arguments parent {P A} m s /.
Arguments handleModeToggle {P} props nextMode s /.
Arguments handleSubmit {P} props s /.
Arguments changeEmail {P} props value s /.
Arguments changePassword {P} props value s /.
Arguments changeName {P} props value s /.
Arguments changeConfirmPassword {P} props value s /.

End AuthForm.

(* ------------------------------------------------------------------ *)
(** ** [components/TaskForm.tsx] *)

Module TaskForm.

Inductive TaskFormMode : Type := create | edit.

Record TaskFormState : Type := mkFormState {
  title : string;
  description : string;
  userId : option Z;
  status : TaskStatus
}.

Definition buildInitialState (task : option Task) : TaskFormState :=
  match task with
  | Some task =>
      mkFormState (Types.title task)
                  (match Types.description task with Some d => d | None => "" end)
                  (Types.userId task)
                  (Types.status task)
  | None => mkFormState "" "" None todo
  end.

(** The component's own [useState] cells. *)
Record State : Type := mkState {
  formState : TaskFormState;
  errors : option string
}.

Definition setFormState (v : TaskFormState) (s : State) : State :=
  mkState v (errors s).
Definition setErrors (v : option string) (s : State) : State :=
  mkState (formState s) v.

(** The cells of a freshly mounted form. *)
Definition initialState (initialTask : option Task) : State :=
  mkState (buildInitialState initialTask) None.

(** [keyof TaskFormState] *)
Inductive Field : Type := title_field | description_field | userId_field | status_field.

Section Component.

(** [P] is the state of the parent that supplies the callbacks. *)
Context {P : Type}.

(** [Number(value)] on the value of the assignee [select], and the
    unchecked reading [value as TaskStatus] of the status [select]. *)
Variable Number : string -> Z.
Variable asTaskStatus : string -> TaskStatus.

Record TaskFormProps : Type := mkProps {
  mode : TaskFormMode;
  users : list User;
  initialTask : option Task;
  isSubmitting : bool;
  onSubmit : TaskPayload -> M P unit;
  onCancel : M P unit
}.

Variable props : TaskFormProps.

Definition own (f : State -> State) : M (State * P) unit :=
  modify (fun w => (f (fst w), snd w)).

Definition parent {A} (m : M P A) : M (State * P) A :=
  zoom snd (fun p w => (fst w, p)) m.

(** The effect keyed on [initialTask] and [mode]. *)
Definition resetEffect : M (State * P) unit :=
  own (setFormState (buildInitialState (initialTask props))) ;;
  own (setErrors None).

Definition handleChange (field : Field) (value : string) : M (State * P) unit :=
  match field with
  | userId_field =>
      own (fun s =>
             let prev := formState s in
             setFormState (mkFormState (title prev) (description prev)
                                       (if nonEmpty value then Some (Number value) else None)
                                       (status prev)) s)
  | status_field =>
      own (fun s =>
             let prev := formState s in
             setFormState (mkFormState (title prev) (description prev) (userId prev)
                                       (asTaskStatus value)) s)
  | title_field =>
      own (fun s =>
             let prev := formState s in
             setFormState (mkFormState value (description prev) (userId prev)
                                       (status prev)) s)
  | description_field =>
      own (fun s =>
             let prev := formState s in
             setFormState (mkFormState (title prev) value (userId prev)
                                       (status prev)) s)
  end.

(** [formState] is the value of the render the handler was created in. *)
Definition handleSubmit : M (State * P) unit :=
  rendered <- get ;;
  let formState := formState (fst rendered) in
  if negb (nonEmpty (title formState))
     || (String.length (trim (title formState)) <? 3)%nat then
    own (setErrors (Some "Title must be at least 3 characters long."))
  else
    own (setErrors None) ;;
    parent (onSubmit props
              (mkTaskPayload (trim (title formState))
                             (Present (trim (description formState)))
                             (userId formState)
                             (Some (status formState)))).

End Component.
Arguments TaskFormProps P : clear implicits.
Arguments own {P} f s /.
Arguments parent {P A} m s /.
Arguments resetEffect {P} props s /.
Arguments handleChange {P} Number asTaskStatus field value s /.
Arguments handleSubmit {P} props s /.

End TaskForm.

(* ------------------------------------------------------------------ *)
(** ** [App.tsx] *)

Module App.

Import AuthForm(AuthMode, login, register, LoginData, RegisterData,
                mkLoginData, mkRegisterData).

Definition FilterOption : Type := TaskList.TaskListFilter.

Definition filters : list (FilterOption * string) :=
  [ (TaskList.all, "All");
    (TaskList.only todo, "To Do");
    (TaskList.only in_progress, "In Progress");
    (TaskList.only done, "Done") ].

(** The sixteen [useState] cells of [App], with their initial values in
    [initialState]. *)
Record State : Type := mkState {
  currentUser : option User;
  authMode : AuthMode;
  authLoading : bool;
  authSubmitting : bool;
  authError : option string;
  tasks : list Task;
  users : list User;
  filter : FilterOption;
  tasksLoading : bool;
  usersLoading : bool;
  error : option string;
  isFormVisible : bool;
  editingTask : option Task;
  isSubmitting : bool;
  busyTaskId : option Z;
  pendingDeleteTask : option Task
}.

Definition setCurrentUser (v : option User) (s : State) : State :=
  mkState v (authMode s) (authLoading s) (authSubmitting s) (authError s)
    (tasks s) (users s) (filter s) (tasksLoading s) (usersLoading s)
    (error s) (isFormVisible s) (editingTask s) (isSubmitting s)
    (busyTaskId s) (pendingDeleteTask s).

Definition setAuthMode (v : AuthMode) (s : State) : State :=
  mkState (currentUser s) v (authLoading s) (authSubmitting s) (authError s)
    (tasks s) (users s) (filter s) (tasksLoading s) (usersLoading s)
    (error s) (isFormVisible s) (editingTask s) (isSubmitting s)
    (busyTaskId s) (pendingDeleteTask s).

Definition setAuthLoading (v : bool) (s : State) : State :=
  mkState (currentUser s) (authMode s) v (authSubmitting s) (authError s)
    (tasks s) (users s) (filter s) (tasksLoading s) (usersLoading s)
    (error s) (isFormVisible s) (editingTask s) (isSubmitting s)
    (busyTaskId s) (pendingDeleteTask s).

Definition setAuthSubmitting (v : bool) (s : State) : State :=
  mkState (currentUser s) (authMode s) (authLoading s) v (authError s)
    (tasks s) (users s) (filter s) (tasksLoading s) (usersLoading s)
    (error s) (isFormVisible s) (editingTask s) (isSubmitting s)
    (busyTaskId s) (pendingDeleteTask s).

Definition setAuthError (v : option string) (s : State) : State :=
  mkState (currentUser s) (authMode s) (authLoading s) (authSubmitting s) v
    (tasks s) (users s) (filter s) (tasksLoading s) (usersLoading s)
    (error s) (isFormVisible s) (editingTask s) (isSubmitting s)
    (busyTaskId s) (pendingDeleteTask s).

Definition setTasks (v : list Task) (s : State) : State :=
  mkState (currentUser s) (authMode s) (authLoading s) (authSubmitting s)
    (authError s) v (users s) (filter s) (tasksLoading s) (usersLoading s)
    (error s) (isFormVisible s) (editingTask s) (isSubmitting s)
    (busyTaskId s) (pendingDeleteTask s).

Definition setUsers (v : list User) (s : State) : State :=
  mkState (currentUser s) (authMode s) (authLoading s) (authSubmitting s)
    (authError s) (tasks s) v (filter s) (tasksLoading s) (usersLoading s)
    (error s) (isFormVisible s) (editingTask s) (isSubmitting s)
    (busyTaskId s) (pendingDeleteTask s).

Definition setFilter (v : FilterOption) (s : State) : State :=
  mkState (currentUser s) (authMode s) (authLoading s) (authSubmitting s)
    (authError s) (tasks s) (users s) v (tasksLoading s) (usersLoading s)
    (error s) (isFormVisible s) (editingTask s) (isSubmitting s)
    (busyTaskId s) (pendingDeleteTask s).

Definition setTasksLoading (v : bool) (s : State) : State :=
  mkState (currentUser s) (authMode s) (authLoading s) (authSubmitting s)
    (authError s) (tasks s) (users s) (filter s) v (usersLoading s)
    (error s) (isFormVisible s) (editingTask s) (isSubmitting s)
    (busyTaskId s) (pendingDeleteTask s).

Definition setUsersLoading (v : bool) (s : State) : State :=
  mkState (currentUser s) (authMode s) (authLoading s) (authSubmitting s)
    (authError s) (tasks s) (users s) (filter s) (tasksLoading s) v
    (error s) (isFormVisible s) (editingTask s) (isSubmitting s)
    (busyTaskId s) (pendingDeleteTask s).

Definition setError (v : option string) (s : State) : State :=
  mkState (currentUser s) (authMode s) (authLoading s) (authSubmitting s)
    (authError s) (tasks s) (users s) (filter s) (tasksLoading s)
    (usersLoading s) v (isFormVisible s) (editingTask s) (isSubmitting s)
    (busyTaskId s) (pendingDeleteTask s).

Definition setIsFormVisible (v : bool) (s : State) : State :=
  mkState (currentUser s) (authMode s) (authLoading s) (authSubmitting s)
    (authError s) (tasks s) (users s) (filter s) (tasksLoading s)
    (usersLoading s) (error s) v (editingTask s) (isSubmitting s)
    (busyTaskId s) (pendingDeleteTask s).

Definition setEditingTask (v : option Task) (s : State) : State :=
  mkState (currentUser s) (authMode s) (authLoading s) (authSubmitting s)
    (authError s) (tasks s) (users s) (filter s) (tasksLoading s)
    (usersLoading s) (error s) (isFormVisible s) v (isSubmitting s)
    (busyTaskId s) (pendingDeleteTask s).

Definition setIsSubmitting (v : bool) (s : State) : State :=
  mkState (currentUser s) (authMode s) (authLoading s) (authSubmitting s)
    (authError s) (tasks s) (users s) (filter s) (tasksLoading s)
    (usersLoading s) (error s) (isFormVisible s) (editingTask s) v
    (busyTaskId s) (pendingDeleteTask s).

Definition setBusyTaskId (v : option Z) (s : State) : State :=
  mkState (currentUser s) (authMode s) (authLoading s) (authSubmitting s)
    (authError s) (tasks s) (users s) (filter s) (tasksLoading s)
    (usersLoading s) (error s) (isFormVisible s) (editingTask s)
    (isSubmitting s) v (pendingDeleteTask s).

Definition setPendingDeleteTask (v : option Task) (s : State) : State :=
  mkState (currentUser s) (authMode s) (authLoading s) (authSubmitting s)
    (authError s) (tasks s) (users s) (filter s) (tasksLoading s)
    (usersLoading s) (error s) (isFormVisible s) (editingTask s)
    (isSubmitting s) (busyTaskId s) v.

Definition initialState : State :=
  mkState None login true false None [] [] TaskList.all false false None
          false None false None None.

(** What the source leaves to its environment: the unchecked readings
    [const data: T = await response.json()] at the declared types (for
    [AuthResponse], of the [user] member it is read for), the message the
    engine gives a [TypeError], and the digits it prints for a number
    beyond the safe integers. *)
Record Casts : Type := mkCasts {
  asTasks : JSON -> list Task;
  asUsers : JSON -> list User;
  asUser : JSON -> User;
  typeErrorMessage : TypeErrorCause -> string;
  bigNumeral : Z -> string
}.

(** [data.user] as [setCurrentUser] keeps it, for a [data] that is not
    [null]: a missing member is [undefined], and every test of
    [currentUser] in [App] is a truthiness test, so [undefined], [null]
    and the other falsy values all are no current user. *)
Definition userRead (cast : Casts) (data : JSON) : option User :=
  match optProp data "user" with
  | Some v => if truthy (Some v) then Some (asUser cast v) else None
  | None => None
  end.

(** *** Requests *)

Definition getUsers : Request := mkRequest GET "/api/users" None.
Definition getTasks : Request := mkRequest GET "/api/tasks?status=all" None.
Definition getMe : Request := mkRequest GET "/api/auth/me" None.
Definition postLogout : Request := mkRequest POST "/api/auth/logout" None.

Definition postLogin (d : LoginData) : Request :=
  mkRequest POST "/api/auth/login"
    (Some (JObj [ ("email", JStr (AuthForm.email d));
                  ("password", JStr (AuthForm.password d)) ])).

Definition postRegister (d : RegisterData) : Request :=
  mkRequest POST "/api/auth/register"
    (Some (JObj [ ("name", JStr (AuthForm.reg_name d));
                  ("email", JStr (AuthForm.reg_email d));
                  ("password", JStr (AuthForm.reg_password d));
                  ("confirmPassword", JStr (AuthForm.reg_confirmPassword d)) ])).

(** [{ ...payload, status }] as [JSON.stringify] writes it: an absent
    member is left out. *)
Definition payloadWithStatus (payload : TaskPayload) (st : TaskStatus) : JSON :=
  JObj ([ ("title", JStr (p_title payload)) ]
        ++ match p_description payload with
           | Absent => []
           | Null => [ ("description", JNull) ]
           | Present d => [ ("description", JStr d) ]
           end
        ++ [ ("userId", match p_userId payload with
                        | Some u => JNum u
                        | None => JNull
                        end);
             ("status", JStr (statusName st)) ]).

Definition taskUrl (taskId : Z) : string := "/api/tasks/" ++ decimal taskId.

Definition postTask (payload : TaskPayload) : Request :=
  mkRequest POST "/api/tasks"
    (Some (payloadWithStatus payload
             (match p_status payload with Some st => st | None => todo end))).

Definition putTask (editingTask : Task) (payload : TaskPayload) : Request :=
  mkRequest PUT (taskUrl (id editingTask))
    (Some (payloadWithStatus payload
             (match p_status payload with
              | Some st => st
              | None => Types.status editingTask
              end))).

Definition patchTask (task : Task) (nextStatus : TaskStatus) : Request :=
  mkRequest PATCH (taskUrl (id task))
    (Some (JObj [ ("status", JStr (statusName nextStatus)) ])).

Definition deleteTask (task : Task) : Request :=
  mkRequest DELETE (taskUrl (id task)) None.

(** *** Session reset and error extraction *)

Definition closeForm : M State unit :=
  modify (setIsFormVisible false) ;;
  modify (setEditingTask None).

Definition resetSession (message : option string) : M State unit :=
  closeForm ;;
  modify (setTasks []) ;;
  modify (setUsers []) ;;
  modify (setBusyTaskId None) ;;
  modify (setEditingTask None) ;;
  modify (setPendingDeleteTask None) ;;
  modify (setCurrentUser None) ;;
  modify (setError None) ;;
  modify (setFilter TaskList.all) ;;
  modify (setAuthMode login) ;;
  modify (setAuthError message).

Definition sessionExpired : string :=
  "Your session has expired. Please log in again.".

Definition handleUnauthorized : M State unit :=
  resetSession (Some sessionExpired).

(** [err.msg]: reading a property of [null] throws a [TypeError]. *)
Definition msgOf (cast : Casts) (err : JSON) : M State (option JSON) :=
  if isNull err then throw (ErrorObj (typeErrorMessage cast (NullRead "msg")))
  else ret (optProp err "msg").

(** [`${response.status} ${response.statusText}`] *)
Definition statusLine (response : Response) : string :=
  decimal (Net.status response) ++ " " ++ statusText response.

(** The [try] block yields [Some] string where the source returns from
    inside it and [None] where control leaves the block; the [catch]
    clause only logs. *)
Definition extractErrorMessage (cast : Casts) (response : Response) : M State string :=
  found <- try_catch
             (payload <- readJson response ;;
              let byMessage : M State (option string) :=
                match optProp payload "message" with
                | Some (JStr message) => ret (Some message)
                | _ => ret None
                end in
              match optProp payload "errors" with
              | Some (JArr errors) =>
                  if negb (List.length errors =? 0)%nat then
                    msgs <- mapM (msgOf cast) errors ;;
                    match join (bigNumeral cast) ", " (List.filter truthy msgs) with
                    | Some joined => ret (Some joined)
                    | None => throw (ErrorObj (typeErrorMessage cast NotPrimitive))
                    end
                  else byMessage
              | _ => byMessage
              end)
             (fun parseError => ret None) ;;
  match found with
  | Some message => ret message
  | None => ret (statusLine response)
  end.

Section Handlers.

Variable cast : Casts.

(** *** Collection synchronizer *)

Definition loadUsers : M State unit :=
  modify (setUsersLoading true) ;;
  try_finally
    (try_catch
       (response <- fetch getUsers ;;
        if Net.status response =? 401 then handleUnauthorized
        else if negb (ok response) then
          message <- extractErrorMessage cast response ;;
          throw (ErrorObj message)
        else
          data <- readJson response ;;
          modify (setUsers (asUsers cast data)) ;;
          modify (setError None))
       (fun err => modify (setError (Some (messageOr "Failed to load users." err)))))
    (modify (setUsersLoading false)).

Definition refreshTasks : M State unit :=
  modify (setTasksLoading true) ;;
  try_finally
    (try_catch
       (response <- fetch getTasks ;;
        if Net.status response =? 401 then handleUnauthorized
        else if negb (ok response) then
          message <- extractErrorMessage cast response ;;
          throw (ErrorObj message)
        else
          data <- readJson response ;;
          modify (setTasks (asTasks cast data)) ;;
          modify (setError None))
       (fun err => modify (setError (Some (messageOr "Failed to load tasks." err)))))
    (modify (setTasksLoading false)).

(** *** Session controller *)

(** The effect run on mount. *)
Definition loadCurrentUser : M State unit :=
  try_finally
    (try_catch
       (response <- fetch getMe ;;
        if negb (ok response) then
          (if negb (Net.status response =? 401) then
             _ <- extractErrorMessage cast response ;; ret tt
           else ret tt) ;;
          resetSession None
        else
          data <- readJson response ;;
          (if isNull data then
             throw (ErrorObj (typeErrorMessage cast (NullRead "user")))
           else
             modify (setCurrentUser (userRead cast data)) ;;
             modify (setAuthError None)))
       (fun err => ret tt))
    (modify (setAuthLoading false)).

(** The effects keyed on [currentUser]. *)
Definition usersEffect : M State unit :=
  rendered <- get ;;
  match currentUser rendered with
  | Some _ => loadUsers
  | None => modify (setUsers [])
  end.

Definition tasksEffect : M State unit :=
  rendered <- get ;;
  match currentUser rendered with
  | Some _ => refreshTasks
  | None => modify (setTasks [])
  end.

Definition openCreateForm : M State unit :=
  modify (setEditingTask None) ;;
  modify (setIsFormVisible true).

Definition handleLogin (d : LoginData) : M State unit :=
  modify (setAuthSubmitting true) ;;
  modify (setAuthError None) ;;
  try_finally
    (try_catch
       (response <- fetch (postLogin d) ;;
        if negb (ok response) then
          message <- extractErrorMessage cast response ;;
          throw (ErrorObj message)
        else
          data <- readJson response ;;
          (if isNull data then
             throw (ErrorObj (typeErrorMessage cast (NullRead "user")))
           else
             modify (setCurrentUser (userRead cast data)) ;;
             modify (setAuthMode login) ;;
             modify (setAuthError None)))
       (fun err => modify (setAuthError (Some (messageOr "Unable to log in." err)))))
    (modify (setAuthSubmitting false)).

Definition handleRegister (d : RegisterData) : M State unit :=
  modify (setAuthSubmitting true) ;;
  modify (setAuthError None) ;;
  try_finally
    (try_catch
       (response <- fetch (postRegister d) ;;
        if negb (ok response) then
          message <- extractErrorMessage cast response ;;
          throw (ErrorObj message)
        else
          data <- readJson response ;;
          (if isNull data then
             throw (ErrorObj (typeErrorMessage cast (NullRead "user")))
           else
             modify (setCurrentUser (userRead cast data)) ;;
             modify (setAuthMode login) ;;
             modify (setAuthError None)))
       (fun err => modify (setAuthError (Some (messageOr "Unable to create account." err)))))
    (modify (setAuthSubmitting false)).

Definition handleLogout : M State unit :=
  try_finally
    (try_catch (_ <- fetch postLogout ;; ret tt) (fun err => ret tt))
    (resetSession None).

(** *** Task mutation coordinator *)

Definition handleCreateTask (payload : TaskPayload) : M State unit :=
  modify (setIsSubmitting true) ;;
  modify (setError None) ;;
  try_finally
    (try_catch
       (response <- fetch (postTask payload) ;;
        if Net.status response =? 401 then handleUnauthorized
        else if negb (ok response) then
          message <- extractErrorMessage cast response ;;
          throw (ErrorObj message)
        else
          refreshTasks ;;
          closeForm)
       (fun err => modify (setError (Some (messageOr "Failed to create task." err)))))
    (modify (setIsSubmitting false)).

Definition handleUpdateTask (payload : TaskPayload) : M State unit :=
  rendered <- get ;;
  match editingTask rendered with
  | None => ret tt
  | Some editingTask =>
      modify (setIsSubmitting true) ;;
      modify (setError None) ;;
      try_finally
        (try_catch
           (response <- fetch (putTask editingTask payload) ;;
            if Net.status response =? 401 then handleUnauthorized
            else if negb (ok response) then
              message <- extractErrorMessage cast response ;;
              throw (ErrorObj message)
            else
              refreshTasks ;;
              closeForm)
           (fun err => modify (setError (Some (messageOr "Failed to update task." err)))))
        (modify (setIsSubmitting false))
  end.

Definition handleDeleteTask (task : Task) : M State unit :=
  modify (setPendingDeleteTask (Some task)).

Definition handleConfirmDelete : M State unit :=
  rendered <- get ;;
  match pendingDeleteTask rendered with
  | None => ret tt
  | Some task =>
      modify (setBusyTaskId (Some (id task))) ;;
      modify (setError None) ;;
      try_finally
        (try_catch
           (response <- fetch (deleteTask task) ;;
            if Net.status response =? 401 then handleUnauthorized
            else if negb (ok response) then
              message <- extractErrorMessage cast response ;;
              throw (ErrorObj message)
            else
              refreshTasks ;;
              modify (setPendingDeleteTask None))
           (fun err => modify (setError (Some (messageOr "Failed to delete task." err)))))
        (modify (setBusyTaskId None))
  end.

Definition handleCancelDelete : M State unit :=
  rendered <- get ;;
  match busyTaskId rendered, pendingDeleteTask rendered with
  | Some busy, Some pending =>
      if busy =? id pending then ret tt
      else modify (setPendingDeleteTask None)
  | _, _ => modify (setPendingDeleteTask None)
  end.

Definition handleUpdateStatus (task : Task) (nextStatus : TaskStatus) : M State unit :=
  modify (setBusyTaskId (Some (id task))) ;;
  modify (setError None) ;;
  try_finally
    (try_catch
       (response <- fetch (patchTask task nextStatus) ;;
        if Net.status response =? 401 then handleUnauthorized
        else if negb (ok response) then
          message <- extractErrorMessage cast response ;;
          throw (ErrorObj message)
        else
          refreshTasks)
       (fun err => modify (setError (Some (messageOr "Failed to update task." err)))))
    (modify (setBusyTaskId None)).

Definition handleFormSubmit (payload : TaskPayload) : M State unit :=
  rendered <- get ;;
  match editingTask rendered with
  | Some _ => handleUpdateTask payload
  | None => handleCreateTask payload
  end.

(** [onEdit] of the task list. *)
Definition onEdit (task : Task) : M State unit :=
  modify (setEditingTask (Some task)) ;;
  modify (setIsFormVisible true).

(** *** What [App] renders *)

(** The props [App] passes to [AuthForm] when there is no current user. *)
Definition authFormProps (s : State) : AuthForm.AuthFormProps State :=
  AuthForm.mkProps (authMode s)
                   (fun m => modify (setAuthMode m))
                   handleLogin
                   handleRegister
                   (authSubmitting s)
                   (authError s)
                   (authLoading s)
                   (modify (setAuthError None)).

(** [editingTask ? 'edit' : 'create'] *)
Definition formMode (s : State) : TaskForm.TaskFormMode :=
  match editingTask s with
  | Some _ => TaskForm.edit
  | None => TaskForm.create
  end.

(** The props [App] passes to [TaskForm] while the form is visible. *)
Definition taskFormProps (s : State) : TaskForm.TaskFormProps State :=
  TaskForm.mkProps (formMode s)
                   (users s)
                   (editingTask s)
                   (isSubmitting s)
                   handleFormSubmit
                   closeForm.

(** The effect keyed on [isFormVisible] and [pendingDeleteTask], on
    [document.body.style.overflow]: the value it leaves there and the value
    its cleanup, if it returns one, will put back. *)
Definition scrollLockEffect (s : State) (overflow : string) : string * option string :=
  if negb (isFormVisible s)
     && negb (match pendingDeleteTask s with Some _ => true | None => false end) then
    ("", None)
  else
    let originalOverflow := overflow in
    ("hidden", Some originalOverflow).

(** [isLoading && !tasks.length] *)
Definition showLoader (s : State) : bool :=
  (tasksLoading s || usersLoading s) && (List.length (tasks s) =? 0)%nat.

(** The board, when it is on screen. *)
Definition board (s : State) : option TaskList.Board :=
  match currentUser s with
  | None => None
  | Some _ =>
      if showLoader s then None
      else Some (TaskList.TaskList (tasks s) (filter s) (busyTaskId s))
  end.

(** What can happen to a mounted [App]: the effects React runs for it,
    the submissions and callbacks coming out of [AuthForm], and the
    controls of the workspace screen, each a handler attached in the JSX. *)
Inductive Event : Type :=
| Mounted
| UsersEffect
| TasksEffect
| SubmitLogin (d : LoginData)
| SubmitRegister (d : RegisterData)
| ChangeAuthMode (m : AuthMode)
| ClearAuthError
| ClickAddTask
| ClickLogout
| ClickFilter (key : FilterOption)
| ClickDismissError
| ClickEdit (task : Task)
| ClickStatus (task : Task) (nextStatus : TaskStatus)
| ClickDelete (task : Task)
| ClickCloseForm
| SubmitTaskForm (payload : TaskPayload)
| ClickConfirmDelete
| ClickCancelDelete.

Definition handle (e : Event) : M State unit :=
  match e with
  | Mounted => loadCurrentUser
  | UsersEffect => usersEffect
  | TasksEffect => tasksEffect
  | SubmitLogin d => handleLogin d
  | SubmitRegister d => handleRegister d
  | ChangeAuthMode m => modify (setAuthMode m)
  | ClearAuthError => modify (setAuthError None)
  | ClickAddTask => openCreateForm
  | ClickLogout => handleLogout
  | ClickFilter key => modify (setFilter key)
  | ClickDismissError => modify (setError None)
  | ClickEdit task => onEdit task
  | ClickStatus task nextStatus => handleUpdateStatus task nextStatus
  | ClickDelete task => handleDeleteTask task
  | ClickCloseForm => closeForm
  | SubmitTaskForm payload => handleFormSubmit payload
  | ClickConfirmDelete => handleConfirmDelete
  | ClickCancelDelete => handleCancelDelete
  end.

(** A card of the rendered board carries [task], is not busy, and offers
    [nextStatus] when one is asked for. *)
Definition cardOffers (s : State) (task : Task) (next : option TaskStatus) : Prop :=
  exists b col card,
    board s = Some b /\
    In col (TaskList.boardColumns b) /\
    In card (TaskList.cards col) /\
    TaskList.card_task card = task /\
    TaskList.isBusy card = false /\
    match next with
    | None => True
    | Some nextStatus =>
        exists a, In a (TaskList.card_actions card) /\ TaskList.nextStatus a = nextStatus
    end.

(** The screen shows the workspace and the control is rendered there and
    not disabled. *)
Definition workspaceOffers (s : State) (e : Event) : Prop :=
  currentUser s <> None /\
  match e with
  | ClickAddTask => usersLoading s = false
  | ClickLogout => True
  | ClickFilter key => TaskList.TaskListFilter_eqb (filter s) key = false
  | ClickDismissError => exists msg, error s = Some msg /\ nonEmpty msg = true
  | ClickEdit task => cardOffers s task None
  | ClickStatus task nextStatus => cardOffers s task (Some nextStatus)
  | ClickDelete task => cardOffers s task None
  | ClickCloseForm => isFormVisible s = true
  | SubmitTaskForm _ => isFormVisible s = true /\ isSubmitting s = false
  | ClickConfirmDelete =>
      exists pending, pendingDeleteTask s = Some pending /\
                      TaskList.isBusyFor (busyTaskId s) pending = false
  | ClickCancelDelete => pendingDeleteTask s <> None
  | _ => False
  end.

(** The event can occur in the render of state [s].  The effects keyed on
    [currentUser] run after a render in which it changed; here they may
    run after any render.  The login form is on screen exactly when there
    is no current user, and submits only when it is not disabled. *)
Definition enabled (s : State) (e : Event) : Prop :=
  match e with
  | Mounted | UsersEffect | TasksEffect => True
  | SubmitLogin _ | SubmitRegister _ =>
      currentUser s = None /\ authSubmitting s = false /\ authLoading s = false
  | ChangeAuthMode _ | ClearAuthError => currentUser s = None
  | _ => workspaceOffers s e
  end.

End Handlers.

Arguments closeForm s /.
Arguments resetSession message s /.
Arguments handleUnauthorized s /.
Arguments loadUsers cast s /.
Arguments refreshTasks cast s /.
Arguments loadCurrentUser cast s /.
Arguments usersEffect cast s /.
Arguments tasksEffect cast s /.
Arguments openCreateForm s /.
Arguments handleLogin cast d s /.
Arguments handleRegister cast d s /.
Arguments handleLogout s /.
Arguments handleCreateTask cast payload s /.
Arguments handleUpdateTask cast payload s /.
Arguments handleDeleteTask task s /.
Arguments handleConfirmDelete cast s /.
Arguments handleCancelDelete s /.
Arguments handleUpdateStatus cast task nextStatus s /.
Arguments handleFormSubmit cast payload s /.
Arguments onEdit task s /.

End App.

(* ------------------------------------------------------------------ *)
(** ** Vocabulary of the properties *)

(** The tasks of one status, in the order of the collection. *)
Definition byStatus (st : TaskStatus) (tasks : list Task) : list Task :=
  List.filter (fun task => TaskStatus_eqb (Types.status task) st) tasks.


(** The [msg] members of the entries of an [errors] list. *)
Definition msgFields (errors : list JSON) : list (option JSON) :=
  map (fun err => optProp err "msg") errors.

(** The non-empty [errors] list of a failed response, if its body parses
    and has one. *)
Definition errorsList (response : Response) : option (list JSON) :=
  match json response with
  | Parsed payload =>
      match optProp payload "errors" with
      | Some (JArr (e :: es)) => Some (e :: es)
      | _ => None
      end
  | Unparsable _ => None
  end.

(** The string [message] member of a failed response, if its body parses
    and has one. *)
Definition messageField (response : Response) : option string :=
  match json response with
  | Parsed payload =>
      match optProp payload "message" with
      | Some (JStr m) => Some m
      | _ => None
      end
  | Unparsable _ => None
  end.

(** The message by the three-step priority list read literally: every
    entry's [msg] joined, else the [message], else the status line. *)
Definition messageByPriority (cast : App.Casts) (response : Response) : string :=
  match errorsList response with
  | Some errors =>
      match join (App.bigNumeral cast) ", " (msgFields errors) with
      | Some joined => joined
      | None => App.statusLine response
      end
  | None =>
      match messageField response with
      | Some m => m
      | None => App.statusLine response
      end
  end.

(** The message the extractor computes: an [errors] list with a [null]
    entry gives the status line; otherwise the truthy [msg] members are
    joined and the other entries are skipped, and the status line results
    when one of them cannot be converted to a string. *)
Definition extractedMessage (cast : App.Casts) (response : Response) : string :=
  match errorsList response with
  | Some errors =>
      if existsb isNull errors then App.statusLine response
      else
        match join (App.bigNumeral cast) ", " (List.filter truthy (msgFields errors)) with
        | Some joined => joined
        | None => App.statusLine response
        end
  | None =>
      match messageField response with
      | Some m => m
      | None => App.statusLine response
      end
  end.

(** The four mutations of the coordinator.  Update targets the task being
    edited and delete the staged task, both read from the state. *)
Inductive Mutation : Type :=
| Create (payload : TaskPayload)
| Update (payload : TaskPayload)
| PatchStatus (task : Task) (nextStatus : TaskStatus)
| Delete.

(** The authenticated operations: the two collection fetches and the
    mutations. *)
Inductive Operation : Type :=
| FetchUsers
| FetchTasks
| Mutate (m : Mutation).

Definition mutate (cast : App.Casts) (m : Mutation) : M App.State unit :=
  match m with
  | Create payload => App.handleCreateTask cast payload
  | Update payload => App.handleUpdateTask cast payload
  | PatchStatus task nextStatus => App.handleUpdateStatus cast task nextStatus
  | Delete => App.handleConfirmDelete cast
  end.

Definition perform (cast : App.Casts) (op : Operation) : M App.State unit :=
  match op with
  | FetchUsers => App.loadUsers cast
  | FetchTasks => App.refreshTasks cast
  | Mutate m => mutate cast m
  end.

(** The task a mutation is about, in state [s]; a create has none. *)
Definition target (m : Mutation) (s : App.State) : option Task :=
  match m with
  | Create _ => None
  | Update _ => App.editingTask s
  | PatchStatus task _ => Some task
  | Delete => App.pendingDeleteTask s
  end.

(** The request a mutation sends from state [s]; update and delete send
    none without a target. *)
Definition mutationRequest (m : Mutation) (s : App.State) : option Request :=
  match m with
  | Create payload => Some (App.postTask payload)
  | Update payload => option_map (fun t => App.putTask t payload) (App.editingTask s)
  | PatchStatus task nextStatus => Some (App.patchTask task nextStatus)
  | Delete => option_map App.deleteTask (App.pendingDeleteTask s)
  end.

(** The request an operation sends first from state [s]. *)
Definition firstRequest (op : Operation) (s : App.State) : option Request :=
  match op with
  | FetchUsers => Some App.getUsers
  | FetchTasks => Some App.getTasks
  | Mutate m => mutationRequest m s
  end.

(** The answer is a response with status 401. *)
Definition is401 (o : FetchOutcome) : bool :=
  match o with
  | Resolved response => Net.status response =? 401
  | Rejected _ => false
  end.

(** The answer is a 2xx response. *)
Definition isAccepted (o : FetchOutcome) : bool :=
  match o with
  | Resolved response => ok response
  | Rejected _ => false
  end.

(** A mutation sending [rq] to the server [net] runs into a session
    expiry: its own request is answered 401, or it is accepted and the
    refresh after it is answered 401. *)
Definition expires (net : nat -> Request -> FetchOutcome) (rq : Request) : bool :=
  is401 (net 0%nat rq)
  || (isAccepted (net 0%nat rq) && is401 (net 1%nat App.getTasks)).

(** Create and update are the submissions of the task form. *)
Definition submitsForm (m : Mutation) : bool :=
  match m with
  | Create _ | Update _ => true
  | PatchStatus _ _ | Delete => false
  end.

(** Every cell [resetSession message] writes holds the value it writes. *)
Definition sessionReset (message : option string) (s : App.State) : Prop :=
  App.isFormVisible s = false
  /\ App.editingTask s = None
  /\ App.tasks s = []
  /\ App.users s = []
  /\ App.busyTaskId s = None
  /\ App.pendingDeleteTask s = None
  /\ App.currentUser s = None
  /\ App.error s = None
  /\ App.filter s = TaskList.all
  /\ App.authMode s = AuthForm.login
  /\ App.authError s = message.

(** Some request of the run was answered with status 401. *)
Definition answered401 {St A} (r : Run St A) : Prop :=
  exists rq response,
    In (rq, Resolved response) (requests r) /\ Net.status response = 401.

(** A request failed otherwise: the fetch resolved with a status outside
    2xx that is not 401. *)
Definition failedResponse (response : Response) : Prop :=
  ok response = false /\ Net.status response <> 401.

(** What a task-list refresh answered by [o] makes of the collection
    [before]: the list the server sent, nothing on a session expiry, and
    the collection as it was on any failure. *)
Definition refreshed (cast : App.Casts) (o : FetchOutcome) (before : list Task) : list Task :=
  match o with
  | Rejected _ => before
  | Resolved response =>
      if Net.status response =? 401 then []
      else if ok response then
        match json response with
        | Parsed data => App.asTasks cast data
        | Unparsable _ => before
        end
      else before
  end.

(** The login form inside [App]: the form's own cells paired with the
    cells of [App], whose render supplied the props. *)
Definition AuthScreen : Type := (AuthForm.State * App.State)%type.

Definition submitAuthForm (cast : App.Casts) : M AuthScreen unit :=
  fun w => AuthForm.handleSubmit (App.authFormProps cast (snd w)) w.

(** The submit event is not dropped by the [isSubmitting || isLoading]
    guard and the form is in login mode. *)
Definition loginSubmittable (w : AuthScreen) : Prop :=
  App.authMode (snd w) = AuthForm.login
  /\ App.authSubmitting (snd w) = false
  /\ App.authLoading (snd w) = false.

(** At most one of the task form and the pending deletion is there. *)
Definition exclusive (s : App.State) : Prop :=
  App.isFormVisible s = false \/ App.pendingDeleteTask s = None.

(** States a mounted [App] gets into by events that [allowed] permits in
    the state they occur in, each handled to completion against some
    server. *)
Inductive reachableBy (cast : App.Casts) (allowed : App.State -> App.Event -> Prop)
  : App.State -> Prop :=
| reach_initial : reachableBy cast allowed App.initialState
| reach_event (s : App.State) (e : App.Event) (net : nat -> Request -> FetchOutcome) :
    reachableBy cast allowed s ->
    allowed s e ->
    reachableBy cast allowed (final (run net (App.handle cast e) s)).

(** The form is opened only while no deletion is pending, and a deletion
    is staged only while the form is closed. *)
Definition oneModalAtATime (s : App.State) (e : App.Event) : Prop :=
  match e with
  | App.ClickAddTask | App.ClickEdit _ => App.pendingDeleteTask s = None
  | App.ClickDelete _ => App.isFormVisible s = false
  | _ => True
  end.

(** An event on offer that keeps to one modal at a time. *)
Definition disciplined (s : App.State) (e : App.Event) : Prop :=
  App.enabled s e /\ oneModalAtATime s e.

(** The task form inside [App]: the form's own cells paired with the
    cells of [App], whose render supplied the props. *)
Definition TaskScreen : Type := (TaskForm.State * App.State)%type.

Definition submitTaskForm (cast : App.Casts) : M TaskScreen unit :=
  fun w => TaskForm.handleSubmit (App.taskFormProps cast (snd w)) w.

(** The form as [App] mounts it: built from the task being edited, if any. *)
Definition mountedTaskForm (s : App.State) : TaskScreen :=
  (TaskForm.initialState (App.editingTask s), s).

(** The register form is on screen and the submit event is not dropped. *)
Definition registerSubmittable (w : AuthScreen) : Prop :=
  App.authMode (snd w) = AuthForm.register
  /\ App.authSubmitting (snd w) = false
  /\ App.authLoading (snd w) = false.

(** The mode toggle and the inputs of the login form inside [App]. *)
Definition toggleAuthMode (cast : App.Casts) (nextMode : AuthForm.AuthMode)
  : M AuthScreen unit :=
  fun w => AuthForm.handleModeToggle (App.authFormProps cast (snd w)) nextMode w.

Inductive AuthInput : Type := NameInput | EmailInput | PasswordInput | ConfirmInput.

Definition typeInto (cast : App.Casts) (input : AuthInput) (value : string)
  : M AuthScreen unit :=
  fun w =>
    let props := App.authFormProps cast (snd w) in
    match input with
    | NameInput => AuthForm.changeName props value w
    | EmailInput => AuthForm.changeEmail props value w
    | PasswordInput => AuthForm.changePassword props value w
    | ConfirmInput => AuthForm.changeConfirmPassword props value w
    end.

(** What [AuthForm] hands to [App] when a submission passes validation. *)
Inductive Credentials : Type :=
| LoginWith (d : AuthForm.LoginData)
| RegisterWith (d : AuthForm.RegisterData).

Definition authenticate (cast : App.Casts) (c : Credentials) : M App.State unit :=
  match c with
  | LoginWith d => App.handleLogin cast d
  | RegisterWith d => App.handleRegister cast d
  end.

Definition authRequest (c : Credentials) : Request :=
  match c with
  | LoginWith d => App.postLogin d
  | RegisterWith d => App.postRegister d
  end.

Definition authFallback (c : Credentials) : string :=
  match c with
  | LoginWith _ => "Unable to log in."
  | RegisterWith _ => "Unable to create account."
  end.

(** [document.body.style.overflow] together with the cleanup the last run
    of the scroll-lock effect registered. *)
Record Body : Type := mkBody {
  overflow : string;
  cleanup : option string
}.

(** React runs the cleanup of the previous run, then the effect. *)
Definition commitScrollLock (s : App.State) (b : Body) : Body :=
  let cleaned := match cleanup b with Some original => original | None => overflow b end in
  let (after, registered) := App.scrollLockEffect s cleaned in
  mkBody after registered.

(** On unmount only the cleanup runs. *)
Definition unmountScrollLock (b : Body) : Body :=
  mkBody (match cleanup b with Some original => original | None => overflow b end) None.

(** A modal is on screen. *)
Definition modalOpen (s : App.State) : bool :=
  App.isFormVisible s
  || match App.pendingDeleteTask s with Some _ => true | None => false end.

(** No handler has left a marker raised. *)
Definition idle (s : App.State) : Prop :=
  App.busyTaskId s = None
  /\ App.isSubmitting s = false
  /\ App.authSubmitting s = false
  /\ App.tasksLoading s = false
  /\ App.usersLoading s = false.

(** Nothing of the workspace is held. *)
Definition workspaceEmpty (s : App.State) : Prop :=
  App.tasks s = []
  /\ App.users s = []
  /\ App.isFormVisible s = false
  /\ App.editingTask s = None
  /\ App.pendingDeleteTask s = None
  /\ App.error s = None
  /\ App.filter s = TaskList.all.


(** The [value] an input of the login form is rendered with. *)
Definition inputValue (w : AuthScreen) (input : AuthInput) : string :=
  let form := fst w in
  match input, App.authMode (snd w) with
  | NameInput, _ => AuthForm.reg_name (AuthForm.registerData form)
  | EmailInput, AuthForm.login => AuthForm.email (AuthForm.loginData form)
  | EmailInput, AuthForm.register => AuthForm.reg_email (AuthForm.registerData form)
  | PasswordInput, AuthForm.login => AuthForm.password (AuthForm.loginData form)
  | PasswordInput, AuthForm.register => AuthForm.reg_password (AuthForm.registerData form)
  | ConfirmInput, _ => AuthForm.reg_confirmPassword (AuthForm.registerData form)
  end.

(** The error the login form displays. *)
Definition shownAuthError (cast : App.Casts) (w : AuthScreen) : option string :=
  AuthForm.activeError (App.authFormProps cast (snd w)) (fst w).

(** A change of one field of the task form followed by a submit. *)
Definition changeThenSubmit (cast : App.Casts) (Number : string -> Z)
           (asTaskStatus : string -> TaskStatus)
           (field : TaskForm.Field) (value : string) : M TaskScreen unit :=
  TaskForm.handleChange Number asTaskStatus field value ;;
  submitTaskForm cast.

(** The sum of the column counts of a board. *)
Definition totalCount (b : TaskList.Board) : nat :=
  fold_right Nat.add 0%nat (map TaskList.count (TaskList.boardColumns b)).

(** The body after the effect has run for each render of a list, in
    order. *)
Definition commitAll (renders : list App.State) (b : Body) : Body :=
  fold_left (fun b s => commitScrollLock s b) renders b.

(* ------------------------------------------------------------------ *)
(** ** Sample data for concrete runs *)

Module Sample.

(** A reading of well-typed bodies at the declared types: the members the
    interfaces of [types.ts] name, an array member by member. *)
Definition textOf (j : JSON) (k : string) : string :=
  match optProp j k with Some (JStr t) => t | _ => "" end.

Definition optTextOf (j : JSON) (k : string) : option string :=
  match optProp j k with Some (JStr t) => Some t | _ => None end.

Definition numberOf (j : JSON) (k : string) : Z :=
  match optProp j k with Some (JNum n) => n | _ => 0 end.

Definition optNumberOf (j : JSON) (k : string) : option Z :=
  match optProp j k with Some (JNum n) => Some n | _ => None end.

Definition userOf (j : JSON) : User :=
  mkUser (numberOf j "id") (textOf j "name") (textOf j "email")
         (optTextOf j "createdAt") (optTextOf j "updatedAt").

Definition statusOf (j : JSON) : TaskStatus :=
  match optProp j "status" with
  | Some (JStr t) =>
      if String.eqb t "in_progress" then in_progress
      else if String.eqb t "done" then done
      else todo
  | _ => todo
  end.

Definition taskOf (j : JSON) : Task :=
  mkTask (numberOf j "id") (textOf j "title") (optTextOf j "description")
         (statusOf j) (optNumberOf j "userId")
         (match optProp j "assignee" with
          | Some (JObj ms) => Some (userOf (JObj ms))
          | _ => None
          end)
         (textOf j "createdAt") (textOf j "updatedAt").

Definition itemsOf (j : JSON) : list JSON :=
  match j with JArr items => items | _ => [] end.

(** The messages are those of Chrome and Node; no sample body holds a
    number beyond the safe integers, so any printing of those will do. *)
Definition casts : App.Casts :=
  App.mkCasts (fun j => map taskOf (itemsOf j))
              (fun j => map userOf (itemsOf j))
              userOf
              (fun cause =>
                 match cause with
                 | NullRead property =>
                     "Cannot read properties of null (reading '" ++ property ++ "')"
                 | NotPrimitive => "Cannot convert object to primitive value"
                 end)
              decimal.

Definition alice : User := mkUser 1 "A" "a@b.com" None None.

Definition aliceJson : JSON :=
  JObj [ ("id", JNum 1); ("name", JStr "A"); ("email", JStr "a@b.com") ].

Definition task7 : Task :=
  mkTask 7 "Ship release" None todo None None
         "2024-05-01T09:00:00.000Z" "2024-05-01T09:00:00.000Z".

Definition task7Json : JSON :=
  JObj [ ("id", JNum 7); ("title", JStr "Ship release"); ("description", JNull);
         ("status", JStr "todo"); ("userId", JNull); ("assignee", JNull);
         ("createdAt", JStr "2024-05-01T09:00:00.000Z");
         ("updatedAt", JStr "2024-05-01T09:00:00.000Z") ].

Definition payload : TaskPayload :=
  mkTaskPayload "Ship release" (Present "") None (Some todo).

(** A server that answers the requests of a run from a script, in order,
    and is unreachable once the script is used up. *)
Definition serves (script : list FetchOutcome) : nat -> Request -> FetchOutcome :=
  fun n _ => nth n script (Rejected (ErrorObj "Failed to fetch")).

Definition okJson (j : JSON) : FetchOutcome :=
  Resolved (mkResponse 200 "OK" (Parsed j)).

Definition unauthorized : FetchOutcome :=
  Resolved (mkResponse 401 "Unauthorized"
                       (Parsed (JObj [ ("message", JStr "Not authenticated") ]))).

Definition invalid : Response :=
  mkResponse 400 "Bad Request"
    (Parsed (JObj [ ("errors",
                     JArr [ JObj [ ("msg", JStr "Title is required") ];
                            JObj [ ("msg", JStr "") ];
                            JObj [ ("msg", JStr "Invalid status") ] ]) ])).

(** The session check succeeds, then the two effects load one user and
    one task: the workspace with nothing open. *)
Definition signedIn : App.State :=
  final (run (serves [ okJson (JObj [ ("user", aliceJson) ]) ])
             (App.handle casts App.Mounted) App.initialState).

Definition withUsers : App.State :=
  final (run (serves [ okJson (JArr [ aliceJson ]) ])
             (App.handle casts App.UsersEffect) signedIn).

Definition workspace : App.State :=
  final (run (serves [ okJson (JArr [ task7Json ]) ])
             (App.handle casts App.TasksEffect) withUsers).

(** The workspace with the deletion of task 7 staged, then with its
    delete request in flight, and with the edit form open on task 7. *)
Definition staged : App.State := App.setPendingDeleteTask (Some task7) workspace.


Definition editing : App.State :=
  App.setIsFormVisible true (App.setEditingTask (Some task7) workspace).

(** The login form, session check over, with an e-mail and a password of
    six spaces. *)
Definition blankPassword : AuthScreen :=
  (AuthForm.setLoginData (AuthForm.mkLoginData "a@b.com" "      ") AuthForm.initialState,
   App.setAuthLoading false App.initialState).

Definition emptyEmail : AuthScreen :=
  (AuthForm.setLoginData (AuthForm.mkLoginData "   " "secret1") AuthForm.initialState,
   App.setAuthLoading false App.initialState).

End Sample.

(** More sample data: forms as a user has filled them. *)
Module Filled.

(** The register form, session check over, with a password of three
    characters. *)
Definition shortPassword : AuthScreen :=
  (AuthForm.setRegisterData (AuthForm.mkRegisterData " Ann " "ann@b.com" "abc" "abc")
                            AuthForm.initialState,
   App.setAuthMode AuthForm.register (App.setAuthLoading false App.initialState)).

(** The login form filled in before the session check has come back. *)
Definition tooEarly : AuthScreen :=
  (AuthForm.setLoginData (AuthForm.mkLoginData "a@b.com" "secret1") AuthForm.initialState,
   App.initialState).

(** The task form as mounted for the edit of task 7. *)
Definition editForm : TaskScreen := mountedTaskForm Sample.editing.

(** A page whose body had its own overflow before [App] was mounted. *)
Definition page : Body := mkBody "scroll" None.

(** The board of the sample workspace, its first column and that column's
    first card: the card of task 7 in the todo column. *)
Definition board7 : TaskList.Board :=
  TaskList.TaskList [ Sample.task7 ] TaskList.all None.

Definition column7 : TaskList.BoardColumn :=
  hd (TaskList.mkBoardColumn
        (TaskList.mkColumn todo "" "" (fun _ => false) []) false [] 0%nat [])
     (TaskList.boardColumns board7).

Definition card7 : TaskList.Card :=
  hd (TaskList.mkCard Sample.task7 "" false []) (TaskList.cards column7).


(** The workspace while the move of task 7 to in_progress is in flight. *)
Definition moving : App.State :=
  App.setError None (App.setBusyTaskId (Some 7) Sample.workspace).

End Filled.

(* ------------------------------------------------------------------ *)
(** * Properties *)

(** Symbolic execution of a handler: unfold the handlers and the monad,
    keep setters, requests and tests as they are written. *)
Ltac exec :=
  cbn [ret throw bind bindP try_catch catchP try_finally get modify fetch
       readJson zoom zoomP inFlight run runFrom result final requests
       fst snd negb
       App.closeForm App.resetSession App.handleUnauthorized
       App.loadUsers App.refreshTasks App.loadCurrentUser App.usersEffect
       App.tasksEffect App.openCreateForm App.handleLogin App.handleRegister
       App.handleLogout App.handleCreateTask App.handleUpdateTask
       App.handleDeleteTask App.handleConfirmDelete App.handleCancelDelete
       App.handleUpdateStatus App.handleFormSubmit App.onEdit App.handle
       App.authFormProps
       AuthForm.own AuthForm.parent AuthForm.handleSubmit
       AuthForm.handleModeToggle AuthForm.mode AuthForm.onModeChange
       AuthForm.onLogin AuthForm.onRegister AuthForm.isSubmitting
       AuthForm.error AuthForm.isLoading AuthForm.onClearError].

(** ** The primitives on small inputs *)

Example trim_both_ends : trim "  a b  " = "a b".
Proof. reflexivity. Qed.

Example trim_blank : trim "      " = "".
Proof. reflexivity. Qed.

Example join_skips_nothing :
  join decimal ", " [Some (JStr "a"); None; Some (JNum 5); Some (JArr [JNull; JBool true])]
  = Some "a, , 5, ,true".
Proof. reflexivity. Qed.

Example own_toString_throws :
  join decimal ", " [Some (JStr "a"); Some (JArr [JObj [("toString", JNum 1)]])] = None
  /\ join decimal ", " [Some (JObj [("msg", JStr "a")])] = Some "[object Object]".
Proof. split; reflexivity. Qed.

Example member_last_wins :
  member "msg" [("msg", JStr "first"); ("msg", JStr "second")] = Some (JStr "second").
Proof. reflexivity. Qed.

Example status_line :
  App.statusLine (mkResponse 404 "Not Found" (Unparsable NonError)) = "404 Not Found".
Proof. reflexivity. Qed.

Example task_url : App.taskUrl 7 = "/api/tasks/7".
Proof. reflexivity. Qed.

Example create_body :
  body (App.postTask (mkTaskPayload "Ship release" Absent None None))
  = Some (JObj [ ("title", JStr "Ship release"); ("userId", JNull);
                 ("status", JStr "todo") ]).
Proof. reflexivity. Qed.

Example null_entry_gives_status_line :
  App.extractErrorMessage Sample.casts
    (mkResponse 422 "Unprocessable Entity"
                (Parsed (JObj [ ("errors", JArr [ JObj [ ("msg", JStr "bad") ]; JNull ]) ])))
    App.initialState
  = Ret "422 Unprocessable Entity" App.initialState.
Proof. reflexivity. Qed.

(** ** Kanban categorizer *)

Section Kanban.

Import TaskList.

Lemma status_eqb_eq (a b : TaskStatus) : TaskStatus_eqb a b = true <-> a = b.
Proof. destruct a, b; simpl; split; congruence. Qed.

Lemma filter_eqb_eq (a b : TaskListFilter) : TaskListFilter_eqb a b = true <-> a = b.
Proof.
  destruct a as [|x], b as [|y]; simpl; try (split; congruence).
  rewrite status_eqb_eq. split; congruence.
Qed.

Lemma board_columns (tasks : list Task) (f : TaskListFilter) (busy : option Z) :
  map columnTasks (boardColumns (TaskList tasks f busy))
  = [byStatus todo tasks; byStatus in_progress tasks; byStatus done tasks].
Proof. reflexivity. Qed.

Lemma groups_permutation (tasks : list Task) :
  Permutation (byStatus todo tasks ++ byStatus in_progress tasks ++ byStatus done tasks)
              tasks.
Proof.
  induction tasks as [|t rest IH]; [constructor|].
  unfold byStatus in *. simpl.
  destruct (Types.status t); simpl.
  - now constructor.
  - symmetry. apply Permutation_cons_app. now symmetry.
  - symmetry. rewrite app_assoc. apply Permutation_cons_app.
    rewrite <- app_assoc. now symmetry.
Qed.

Lemma in_byStatus (st : TaskStatus) (t : Task) (tasks : list Task) :
  In t (byStatus st tasks) <-> In t tasks /\ Types.status t = st.
Proof. unfold byStatus. rewrite filter_In, status_eqb_eq. tauto. Qed.

(** C4.  For every task collection and every active filter the board has
    the three columns todo, in_progress, done in that order; a column
    holds exactly the tasks of its status, in the order of the collection,
    and shows their number; every task of the collection is in one column
    and in no other; the columns together are a rearrangement of the
    collection; and the columns' tasks and counts are the same under every
    filter, which only decides which columns are muted. *)
Theorem kanban_partition (tasks : list Task) (activeFilter : TaskListFilter)
        (busy : option Z) :
  let cols := boardColumns (TaskList tasks activeFilter busy) in
  map (fun c => key (column c)) cols = [todo; in_progress; done]
  /\ Forall (fun c => columnTasks c = byStatus (key (column c)) tasks
                      /\ count c = List.length (columnTasks c)
                      /\ muted c = negb (TaskListFilter_eqb activeFilter all)
                                   && negb (TaskListFilter_eqb activeFilter
                                              (only (key (column c)))))
            cols
  /\ Forall (fun t => exists c, In c cols /\ In t (columnTasks c)
                       /\ forall c', In c' cols -> In t (columnTasks c') ->
                                     key (column c') = key (column c))
            tasks
  /\ Permutation (List.concat (map columnTasks cols)) tasks
  /\ forall otherFilter otherBusy,
       let cols' := boardColumns (TaskList tasks otherFilter otherBusy) in
       map columnTasks cols' = map columnTasks cols
       /\ map count cols' = map count cols.
Proof.
  cbv zeta. split; [reflexivity|]. split.
  { unfold TaskList; simpl. repeat constructor. }
  split.
  { apply Forall_forall. intros t Ht.
    unfold TaskList; simpl.
    destruct (Types.status t) eqn:Est.
    1: eexists; split; [left; reflexivity|].
    2: eexists; split; [right; left; reflexivity|].
    3: eexists; split; [right; right; left; reflexivity|].
    all: simpl; split; [apply (in_byStatus _ t tasks); auto|].
    all: intros c' [<-|[<-|[<-|[]]]]; simpl; intros Hin;
      apply (in_byStatus _ t tasks) in Hin; destruct Hin; congruence. }
  split.
  { rewrite board_columns. simpl. rewrite app_nil_r. apply groups_permutation. }
  intros otherFilter otherBusy. split; reflexivity.
Qed.

End Kanban.

(** ** Modal and workflow coordinator *)

Section Workflow.

Import App.

Variable cast : Casts.



(** C10.  Confirming with no deletion staged returns at once with the
    state unchanged: no request is issued and the busy marker is not
    written. *)
Theorem confirmDelete_idle (s : State) :
  pendingDeleteTask s = None ->
  handleConfirmDelete cast s = Ret tt s
  /\ forall net, run net (handleConfirmDelete cast) s = mkRun (Returned tt) s [].
Proof.
  intros Hnone.
  assert (E : handleConfirmDelete cast s = Ret tt s).
  { unfold handleConfirmDelete. cbn. rewrite Hnone. reflexivity. }
  split; [exact E|]. intros net. unfold run. rewrite E. reflexivity.
Qed.

End Workflow.

(** ** Error extractor *)

Section ErrorExtractor.

Import App.

Variable cast : Casts.

Lemma mapM_msgOf (errors : list JSON) (s : State) :
  (existsb isNull errors = false /\
   mapM (msgOf cast) errors s = Ret (msgFields errors) s)
  \/ (existsb isNull errors = true /\
      exists e, mapM (msgOf cast) errors s = Raise e s).
Proof.
  induction errors as [|err rest IH]; [left; split; reflexivity|].
  assert (Hstep : mapM (msgOf cast) (err :: rest) s
                  = bindP (msgOf cast err s)
                          (fun y s' => bindP (mapM (msgOf cast) rest s')
                                             (fun ys => ret (y :: ys))))
    by reflexivity.
  assert (Hmsg : msgOf cast err s
                 = if isNull err
                   then Raise (ErrorObj (typeErrorMessage cast (NullRead "msg"))) s
                   else Ret (optProp err "msg") s)
    by (unfold msgOf; destruct (isNull err); reflexivity).
  rewrite Hstep, Hmsg. cbn [existsb].
  destruct (isNull err); cbn [orb bindP].
  - right. split; [reflexivity|]. eexists. reflexivity.
  - destruct IH as [[Hn E]|[Hn [e E]]]; [left|right]; (split; [exact Hn|]);
      rewrite E; cbn [bindP ret]; [reflexivity|eexists; reflexivity].
Qed.

(** Strings join as they are. *)
Lemma join_strings (big : Z -> string) (sep : string) (texts : list string) :
  join big sep (map (fun t => Some (JStr t)) texts) = Some (String.concat sep texts).
Proof.
  unfold join.
  assert (H : joinItems big (map (fun t => Some (JStr t)) texts) = Some texts).
  { induction texts as [|t rest IH]; [reflexivity|]. cbn. rewrite IH. reflexivity. }
  rewrite H. reflexivity.
Qed.

(** The extractor returns in place: it neither throws nor suspends, and
    leaves the state alone.  Its value is [extractedMessage]. *)
Lemma extractErrorMessage_returns (response : Response) (s : State) :
  extractErrorMessage cast response s = Ret (extractedMessage cast response) s.
Proof.
  unfold extractErrorMessage, extractedMessage, errorsList, messageField, readJson.
  unfold bind at 1, try_catch, bind at 1.
  destruct (json response) as [e|payload]; [reflexivity|].
  cbn [throw ret bindP catchP].
  destruct (optProp payload "errors") as [[| | | |errors|]|];
    try (destruct (optProp payload "message") as [[| | |m| |]|]; reflexivity).
  destruct errors as [|err rest];
    [destruct (optProp payload "message") as [[| | |m| |]|]; reflexivity|].
  cbn [List.length Nat.eqb negb].
  unfold bind at 1.
  destruct (mapM_msgOf (err :: rest) s) as [[Hn E]|[Hn [e E]]]; rewrite E, Hn;
    [|reflexivity].
  cbn [bindP].
  destruct (join (bigNumeral cast) ", " (List.filter truthy (msgFields (err :: rest))));
    reflexivity.
Qed.

(** C7 (as amended).  For every failed response the extractor returns a
    string and never raises.  If the body parses and has a non-empty
    [errors] list, the string is the truthy [msg] members of the entries
    joined with [", "], entries whose [msg] is missing or falsy being
    skipped; but a [null] entry, or a truthy [msg] that cannot be
    converted to a string, gives the status line.  Otherwise a string
    [message] member is returned; otherwise, and on a body that does not
    parse, ["<status> <statusText>"]. *)
Theorem extractErrorMessage_spec (response : Response) (s : State) :
  extractErrorMessage cast response s = Ret (extractedMessage cast response) s
  /\ (forall errors, errorsList response = Some errors ->
        extractedMessage cast response
        = if existsb isNull errors then statusLine response
          else match join (bigNumeral cast) ", "
                          (List.filter truthy (msgFields errors)) with
               | Some joined => joined
               | None => statusLine response
               end)
  /\ (forall m, errorsList response = None -> messageField response = Some m ->
        extractedMessage cast response = m)
  /\ (errorsList response = None -> messageField response = None ->
        extractedMessage cast response
        = decimal (Net.status response) ++ " " ++ statusText response)
  /\ (forall e, json response = Unparsable e ->
        extractedMessage cast response = statusLine response).
Proof.
  split; [apply extractErrorMessage_returns|].
  unfold extractedMessage. repeat split.
  - intros errors ->. reflexivity.
  - intros m -> ->. reflexivity.
  - intros -> ->. reflexivity.
  - intros e He. unfold errorsList, messageField. rewrite He. reflexivity.
Qed.

End ErrorExtractor.

(** ** Local validation of the login form *)

Section LoginValidation.

Import AuthForm App.

Variable cast : Casts.

(** C8 (as amended).  A login submission is checked before any request:
    when the e-mail is empty after trimming or the password, taken as
    typed, is empty, the handler returns with the local error set and no
    request; otherwise the login request is issued with the trimmed e-mail
    and the password as typed. *)
Theorem login_validation (w : AuthScreen) :
  loginSubmittable w ->
  let d := loginData (fst w) in
  if negb (nonEmpty (trim (email d))) || negb (nonEmpty (password d)) then
    submitAuthForm cast w
    = Ret tt (AuthForm.setLocalError (Some "Enter your email and password.") (fst w),
              setAuthError None (snd w))
  else
    inFlight (submitAuthForm cast w)
    = Some (postLogin (mkLoginData (trim (email d)) (password d)),
            (AuthForm.setLocalError None (fst w),
             setAuthError None (setAuthSubmitting true (setAuthError None (snd w))))).
Proof.
  destruct w as [form app]. unfold loginSubmittable. cbn [fst snd].
  intros (Hmode & Hsub & Hload).
  unfold submitAuthForm. exec.
  rewrite Hmode, Hsub, Hload. cbn [orb email password].
  destruct (negb (nonEmpty (trim (email (loginData form))))
            || negb (nonEmpty (password (loginData form)))); reflexivity.
Qed.

End LoginValidation.

(** ** Session expiry, busy marker, refresh and failures *)

Section Controller.

Import App.

Variable cast : Casts.
Variable net : nat -> Request -> FetchOutcome.

(** Case analysis on what the server answered and on the handler's tests;
    an answer already fixed is reused. *)
Ltac answer :=
  match goal with
  | H : net ?n ?rq = _ |- context [net ?n ?rq] => rewrite H
  | H : ok ?r = _ |- context [ok ?r] => rewrite H
  | H : (Net.status ?r =? 401) = _ |- context [Net.status ?r =? 401] => rewrite H
  | H : ?c = true |- context [if ?c then _ else _] => rewrite H
  | H : ?c = false |- context [if ?c then _ else _] => rewrite H
  | H : json ?r = _ |- context [match json ?r with _ => _ end] => rewrite H
  | |- context [bindP (extractErrorMessage ?c ?r ?s) _] =>
      rewrite (extractErrorMessage_returns c r s)
  | |- context [match net ?n ?rq with _ => _ end] => destruct (net n rq) eqn:?
  | |- context [Net.status ?r =? 401] => destruct (Net.status r =? 401) eqn:?
  | |- context [if negb (ok ?r) then _ else _] => destruct (ok r) eqn:?
  | |- context [if ?c then _ else _] => destruct c eqn:?
  | |- context [match json ?r with _ => _ end] => destruct (json r) eqn:?
  end.

Ltac crunch := exec; cbn [orb andb]; repeat (answer; exec; cbn [orb andb]).

(** Start an operation that is known to send [rq]. *)
Ltac start op s Hrq :=
  destruct op as [| |[payload|payload|task nextStatus|]];
  cbn [firstRequest mutationRequest perform mutate option_map] in *;
  [ | | | revert Hrq; exec; destruct (editingTask s) as [editing|] eqn:Hedit;
          [|discriminate]; intros Hrq
    | | revert Hrq; exec; destruct (pendingDeleteTask s) as [pending|] eqn:Hpending;
          [|discriminate]; intros Hrq ];
  injection Hrq as <-.

Lemma resetSession_resets (message : option string) (s : State) :
  exists s', resetSession message s = Ret tt s' /\ sessionReset message s'.
Proof. eexists. split; [reflexivity|]. repeat split. Qed.

Lemma accepted_not_401 (response : Response) :
  ok response = true -> (Net.status response =? 401) = false.
Proof.
  unfold ok. intros H. apply andb_true_iff in H. destruct H as [_ H].
  apply Z.leb_le in H. apply Z.eqb_neq. lia.
Qed.

(** A run in which some request was answered 401 ends reset. *)
Lemma answered401_resets (op : Operation) (s : State) :
  answered401 (run net (perform cast op) s) ->
  sessionReset (Some sessionExpired) (final (run net (perform cast op) s)).
Proof.
  unfold answered401.
  destruct op as [| |[payload|payload|task nextStatus|]]; cbn [perform mutate].
  all: try (exec; destruct (editingTask s)); try (exec; destruct (pendingDeleteTask s)).
  all: crunch.
  all: try (repeat split; fail).
  all: intros (rq & response & Hin & H401); exfalso; cbn [In] in Hin.
  all: repeat match goal with
         | H : _ \/ _ |- _ => destruct H
         | H : False |- _ => destruct H
         | H : (_, _) = (_, _) |- _ => injection H as ? ?; subst
         end.
  all: try discriminate.
  all: try (apply Z.eqb_eq in H401; congruence).
Qed.

(** C1.  Each authenticated operation (user-list fetch, task-list fetch,
    create, update, patch-status, delete) sends its request, and when the
    server answers that request with 401, or accepts a mutation and
    answers the refresh after it with 401, the run stops there and ends in
    the state of [resetSession] called with the fixed session-expired
    message: no identity, no tasks, no users, no pending deletion, no busy
    marker, the form closed, the filter back to all, and the message in
    [authError]; the workspace error banner is not set.  So does every run
    in which some request was answered 401. *)
Theorem unauthorized_resets_session (op : Operation) (s : State) (rq : Request) :
  firstRequest op s = Some rq ->
  let r := run net (perform cast op) s in
  let expired (s' : State) :=
    sessionReset (Some sessionExpired) s'
    /\ currentUser s' = None /\ tasks s' = [] /\ users s' = []
    /\ pendingDeleteTask s' = None /\ busyTaskId s' = None
    /\ isFormVisible s' = false /\ editingTask s' = None
    /\ filter s' = TaskList.all
    /\ authError s' = Some "Your session has expired. Please log in again."
    /\ error s' = None in
  (exists rest, requests r = (rq, net 0%nat rq) :: rest)
  /\ (is401 (net 0%nat rq) = true ->
      requests r = [(rq, net 0%nat rq)] /\ expired (final r))
  /\ (forall m, op = Mutate m ->
        isAccepted (net 0%nat rq) = true -> is401 (net 1%nat getTasks) = true ->
        requests r = [(rq, net 0%nat rq); (getTasks, net 1%nat getTasks)]
        /\ expired (final r))
  /\ (answered401 r -> expired (final r)).
Proof.
  intros Hrq. cbv zeta.
  assert (Hreset : answered401 (run net (perform cast op) s) ->
                   sessionReset (Some sessionExpired)
                                (final (run net (perform cast op) s))
                   /\ currentUser (final (run net (perform cast op) s)) = None
                   /\ tasks (final (run net (perform cast op) s)) = []
                   /\ users (final (run net (perform cast op) s)) = []
                   /\ pendingDeleteTask (final (run net (perform cast op) s)) = None
                   /\ busyTaskId (final (run net (perform cast op) s)) = None
                   /\ isFormVisible (final (run net (perform cast op) s)) = false
                   /\ editingTask (final (run net (perform cast op) s)) = None
                   /\ filter (final (run net (perform cast op) s)) = TaskList.all
                   /\ authError (final (run net (perform cast op) s))
                      = Some "Your session has expired. Please log in again."
                   /\ error (final (run net (perform cast op) s)) = None).
  { intros H. pose proof (answered401_resets op s H) as R.
    split; [exact R|]. unfold sessionReset in R. tauto. }
  assert (Hfirst : exists rest,
             requests (run net (perform cast op) s) = (rq, net 0%nat rq) :: rest).
  { clear Hreset. start op s Hrq; exec; eexists; reflexivity. }
  assert (Honly : is401 (net 0%nat rq) = true ->
                  requests (run net (perform cast op) s) = [(rq, net 0%nat rq)]).
  { clear Hreset Hfirst. unfold is401. start op s Hrq.
    all: exec; destruct (net 0%nat _) as [e|response] eqn:Hnet; [discriminate|].
    all: intros H401; exec; rewrite H401; reflexivity. }
  assert (Hboth : forall m, op = Mutate m ->
                  isAccepted (net 0%nat rq) = true ->
                  is401 (net 1%nat getTasks) = true ->
                  requests (run net (perform cast op) s)
                  = [(rq, net 0%nat rq); (getTasks, net 1%nat getTasks)]).
  { clear Hreset Hfirst Honly. intros m ->. unfold is401, isAccepted.
    cbn [firstRequest perform] in *.
    destruct m as [payload|payload|task nextStatus|];
      cbn [mutationRequest mutate option_map] in *.
    2: revert Hrq; exec; destruct (editingTask s) as [editing|]; [|discriminate];
       intros Hrq.
    4: revert Hrq; exec; destruct (pendingDeleteTask s) as [pending|]; [|discriminate];
       intros Hrq.
    all: injection Hrq as <-.
    all: exec; destruct (net 0%nat _) as [e|accepted] eqn:Hnet; [discriminate|].
    all: intros Hok; pose proof (accepted_not_401 _ Hok) as Hn401.
    all: destruct (net 1%nat getTasks) as [e|response] eqn:Hnet1; [discriminate|].
    all: intros H401; crunch; reflexivity. }
  split; [exact Hfirst|]. split; [|split; [|exact Hreset]].
  - intros H401. split; [exact (Honly H401)|]. apply Hreset.
    unfold answered401. rewrite (Honly H401).
    unfold is401 in H401. destruct (net 0%nat rq) as [e|response]; [discriminate|].
    exists rq, response. split; [left; reflexivity|apply Z.eqb_eq; exact H401].
  - intros m Hm Hok H401. split; [exact (Hboth m Hm Hok H401)|]. apply Hreset.
    unfold answered401. rewrite (Hboth m Hm Hok H401).
    unfold is401 in H401.
    destruct (net 1%nat getTasks) as [e|response]; [discriminate|].
    exists getTasks, response.
    split; [right; left; reflexivity|apply Z.eqb_eq; exact H401].
Qed.

(** C2 (as amended).  A mutation that sends a request is suspended in it
    with its marker raised, and ends with the marker cleared whatever the
    server answers.  For patch-status and delete the marker is the busy
    marker, set to the target task's id.  Create and update do not set the
    busy marker: theirs is the [isSubmitting] flag, and the busy marker is
    as they found it while the call is in flight and at the end of the
    run, unless the run meets a session expiry (the call, or the refresh
    after it, answered 401), whose reset clears it. *)
Theorem busy_marker_protocol (m : Mutation) (s : State) (rq : Request) :
  mutationRequest m s = Some rq ->
  exists during,
    inFlight (mutate cast m s) = Some (rq, during)
    /\ if submitsForm m then
         busyTaskId during = busyTaskId s
         /\ isSubmitting during = true
         /\ isSubmitting (final (run net (mutate cast m) s)) = false
         /\ busyTaskId (final (run net (mutate cast m) s))
            = (if expires net rq then None else busyTaskId s)
       else
         busyTaskId during = option_map id (target m s)
         /\ busyTaskId during <> None
         /\ busyTaskId (final (run net (mutate cast m) s)) = None.
Proof.
  unfold expires, is401, isAccepted.
  destruct m as [payload|payload|task nextStatus|];
    cbn [mutationRequest mutate submitsForm target option_map].
  - intros [= <-]. eexists. split; [reflexivity|].
    split; [reflexivity|]. split; [reflexivity|]. split; crunch; reflexivity.
  - exec. destruct (editingTask s) as [t|]; [|discriminate].
    intros [= <-]. eexists. split; [reflexivity|].
    split; [reflexivity|]. split; [reflexivity|]. split; crunch; reflexivity.
  - intros [= <-]. eexists. split; [reflexivity|].
    split; [reflexivity|]. split; [discriminate|]. crunch; reflexivity.
  - exec. destruct (pendingDeleteTask s) as [t|]; [|discriminate].
    intros [= <-]. eexists. split; [reflexivity|].
    split; [reflexivity|]. split; [discriminate|]. crunch; reflexivity.
Qed.

(** C3 (as amended).  When the server accepts a mutation (create, update,
    patch-status or delete), the run goes on to request the whole task
    list, and the collection afterwards is what that refresh makes of it,
    whatever the mutation's own response carried.  For create and update
    the form is closed at the end of such a run; when the mutation fails
    (the fetch is rejected, or answered outside 2xx other than 401) no
    refresh is requested and the form is left as it was; and when the
    mutation is answered 401 no refresh is requested and the form is
    closed, by the session reset. *)
Theorem mutation_refresh_and_form (m : Mutation) (s : State) (rq : Request) :
  mutationRequest m s = Some rq ->
  let r := run net (mutate cast m) s in
  (forall response,
      net 0%nat rq = Resolved response -> ok response = true ->
      requests r = [(rq, Resolved response); (getTasks, net 1%nat getTasks)]
      /\ tasks (final r) = refreshed cast (net 1%nat getTasks) (tasks s)
      /\ (submitsForm m = true ->
          isFormVisible (final r) = false /\ editingTask (final r) = None))
  /\ (forall o,
         net 0%nat rq = o ->
         match o with
         | Rejected _ => True
         | Resolved response => failedResponse response
         end ->
         requests r = [(rq, o)]
         /\ (submitsForm m = true ->
             isFormVisible (final r) = isFormVisible s
             /\ editingTask (final r) = editingTask s))
  /\ (forall response,
         net 0%nat rq = Resolved response -> Net.status response = 401 ->
         requests r = [(rq, Resolved response)]
         /\ isFormVisible (final r) = false /\ editingTask (final r) = None).
Proof.
  intros Hrq. cbv zeta. split; [|split].
  - intros response Hnet Hok.
    pose proof (accepted_not_401 _ Hok) as H401.
    destruct m as [payload|payload|task nextStatus|];
      cbn [mutationRequest mutate submitsForm option_map] in *.
    2: revert Hrq; exec; destruct (editingTask s) as [t|]; [|discriminate]; intros Hrq.
    4: revert Hrq; exec; destruct (pendingDeleteTask s) as [t|]; [|discriminate]; intros Hrq.
    all: injection Hrq as <-.
    all: unfold refreshed; crunch.
    all: repeat split; try reflexivity; try discriminate.
  - intros o Hnet Hfail.
    destruct m as [payload|payload|task nextStatus|];
      cbn [mutationRequest mutate submitsForm option_map] in *.
    2: revert Hrq; exec; destruct (editingTask s) as [t|] eqn:Hedit; [|discriminate]; intros Hrq.
    4: revert Hrq; exec; destruct (pendingDeleteTask s) as [t|]; [|discriminate]; intros Hrq.
    all: injection Hrq as <-.
    all: destruct o as [e|response];
      [|destruct Hfail as [Hok Hn401]; apply Z.eqb_neq in Hn401].
    all: crunch.
    all: repeat split; try reflexivity; try discriminate; auto.
  - intros response Hnet H401. apply Z.eqb_eq in H401.
    destruct m as [payload|payload|task nextStatus|];
      cbn [mutationRequest mutate option_map] in *.
    2: revert Hrq; exec; destruct (editingTask s) as [t|]; [|discriminate]; intros Hrq.
    4: revert Hrq; exec; destruct (pendingDeleteTask s) as [t|]; [|discriminate]; intros Hrq.
    all: injection Hrq as <-.
    all: crunch.
    all: repeat split.
Qed.

(** What a failed request leaves: the extracted message in [error] and the
    two collections of [s]. *)
Lemma failed_in_log (op : Operation) (s : State) (rq : Request) (response : Response) :
  In (rq, Resolved response) (requests (run net (perform cast op) s)) ->
  failedResponse response ->
  error (final (run net (perform cast op) s)) = Some (extractedMessage cast response)
  /\ tasks (final (run net (perform cast op) s)) = tasks s
  /\ users (final (run net (perform cast op) s)) = users s.
Proof.
  intros Hin [Hok Hn401]. apply Z.eqb_neq in Hn401. revert Hin.
  destruct op as [| |[payload|payload|task nextStatus|]]; cbn [perform mutate].
  all: try (exec; destruct (editingTask s)); try (exec; destruct (pendingDeleteTask s)).
  all: crunch.
  all: cbn [In]; intros Hin.
  all: repeat match goal with
         | H : _ \/ _ |- _ => destruct H
         | H : False |- _ => destruct H
         | H : (_, _) = (_, _) |- _ => injection H as ? ?; subst
         end.
  all: try discriminate.
  all: try congruence.
  all: try (repeat split; reflexivity).
Qed.

(** C6.  Each authenticated operation (a collection fetch or a mutation)
    sends its request, and when that request, or the refresh after an
    accepted mutation, is answered outside 2xx with a status other than
    401, the run stops there and ends with the extracted message in
    [error], whatever was there before, and with the task collection and
    the user collection as they were.  So does every run in which some
    request was answered that way. *)
Theorem failure_keeps_collections (op : Operation) (s : State) (rq : Request) :
  firstRequest op s = Some rq ->
  let r := run net (perform cast op) s in
  let kept (response : Response) (s' : State) :=
    error s' = Some (extractedMessage cast response)
    /\ tasks s' = tasks s
    /\ users s' = users s in
  (exists rest, requests r = (rq, net 0%nat rq) :: rest)
  /\ (forall response,
         net 0%nat rq = Resolved response -> failedResponse response ->
         requests r = [(rq, Resolved response)] /\ kept response (final r))
  /\ (forall m accepted response,
         op = Mutate m ->
         net 0%nat rq = Resolved accepted -> ok accepted = true ->
         net 1%nat getTasks = Resolved response -> failedResponse response ->
         requests r = [(rq, Resolved accepted); (getTasks, Resolved response)]
         /\ kept response (final r))
  /\ (forall rq' response,
         In (rq', Resolved response) (requests r) -> failedResponse response ->
         kept response (final r)).
Proof.
  intros Hrq. cbv zeta.
  assert (Hfirst : exists rest,
             requests (run net (perform cast op) s) = (rq, net 0%nat rq) :: rest).
  { start op s Hrq; exec; eexists; reflexivity. }
  assert (Honly : forall response,
             net 0%nat rq = Resolved response -> failedResponse response ->
             requests (run net (perform cast op) s) = [(rq, Resolved response)]).
  { clear Hfirst. intros response Hnet [Hok Hn401]. apply Z.eqb_neq in Hn401.
    start op s Hrq; crunch; reflexivity. }
  assert (Hboth : forall m accepted response,
             op = Mutate m ->
             net 0%nat rq = Resolved accepted -> ok accepted = true ->
             net 1%nat getTasks = Resolved response -> failedResponse response ->
             requests (run net (perform cast op) s)
             = [(rq, Resolved accepted); (getTasks, Resolved response)]).
  { clear Hfirst Honly. intros m accepted response -> Hnet Hacc Hnet1 [Hok Hn401].
    apply Z.eqb_neq in Hn401. pose proof (accepted_not_401 _ Hacc) as Hacc401.
    cbn [firstRequest perform] in *.
    destruct m as [payload|payload|task nextStatus|];
      cbn [mutationRequest mutate option_map] in *.
    2: revert Hrq; exec; destruct (editingTask s) as [editing|]; [|discriminate];
       intros Hrq.
    4: revert Hrq; exec; destruct (pendingDeleteTask s) as [pending|]; [|discriminate];
       intros Hrq.
    all: injection Hrq as <-.
    all: crunch; reflexivity. }
  split; [exact Hfirst|]. split; [|split].
  - intros response Hnet Hfail. split; [exact (Honly response Hnet Hfail)|].
    apply failed_in_log with (rq := rq); [|exact Hfail].
    rewrite (Honly response Hnet Hfail). left. reflexivity.
  - intros m accepted response Hm Hnet Hacc Hnet1 Hfail.
    split; [exact (Hboth m accepted response Hm Hnet Hacc Hnet1 Hfail)|].
    apply failed_in_log with (rq := getTasks); [|exact Hfail].
    rewrite (Hboth m accepted response Hm Hnet Hacc Hnet1 Hfail).
    right. left. reflexivity.
  - intros rq' response Hin Hfail. exact (failed_in_log op s rq' response Hin Hfail).
Qed.

End Controller.

(** The sample workspace is what the three runs leave. *)
Example sample_workspace :
  App.currentUser Sample.workspace = Some Sample.alice
  /\ App.users Sample.workspace = [Sample.alice]
  /\ App.tasks Sample.workspace = [Sample.task7]
  /\ App.isFormVisible Sample.workspace = false
  /\ App.pendingDeleteTask Sample.workspace = None
  /\ App.busyTaskId Sample.workspace = None
  /\ App.usersLoading Sample.workspace = false
  /\ App.tasksLoading Sample.workspace = false.
Proof. repeat split. Qed.

(** ** Form and confirmation together *)

Section Modals.

Import App.

Variable cast : Casts.

Lemma reachableBy_weaken (allowed allowed' : State -> Event -> Prop) :
  (forall s e, allowed s e -> allowed' s e) ->
  forall s, reachableBy cast allowed s -> reachableBy cast allowed' s.
Proof.
  intros Himp s H. induction H as [|s e net H IH Hallowed].
  - constructor.
  - constructor; auto.
Qed.

(** Case analysis as in [answer], for a server given per event. *)
Ltac settle net :=
  exec;
  repeat (match goal with
          | H : net ?n ?rq = _ |- context [net ?n ?rq] => rewrite H
          | |- context [bindP (extractErrorMessage ?c ?r ?s) _] =>
              rewrite (extractErrorMessage_returns c r s)
          | |- context [match net ?n ?rq with _ => _ end] => destruct (net n rq) eqn:?
          | |- context [if ?c then _ else _] => destruct c eqn:?
          | |- context [match json ?r with _ => _ end] => destruct (json r) eqn:?
          | |- context [match currentUser ?s with _ => _ end] =>
              destruct (currentUser s) eqn:?
          | |- context [match editingTask ?s with _ => _ end] =>
              destruct (editingTask s) eqn:?
          | |- context [match pendingDeleteTask ?s with _ => _ end] =>
              destruct (pendingDeleteTask s) eqn:?
          | |- context [match busyTaskId ?s with _ => _ end] =>
              destruct (busyTaskId s) eqn:?
          end; exec).

(** Handling one event that keeps to one modal at a time keeps the form
    and the confirmation exclusive. *)
Lemma event_keeps_exclusive (net : nat -> Request -> FetchOutcome)
      (e : Event) (s : State) :
  exclusive s -> oneModalAtATime s e ->
  exclusive (final (run net (handle cast e) s)).
Proof.
  unfold exclusive. intros Hex Hone.
  destruct e; cbn [oneModalAtATime] in Hone; settle net.
  all: cbn; auto; try tauto; try (right; congruence).
  all: destruct Hex; [left; assumption|congruence].
Qed.

(** C9 (as amended).  Along events in which the form is opened only while
    no deletion is pending and a deletion is staged only while the form is
    closed, at most one of the task form and the pending deletion is there.
    The handlers do not enforce this themselves: opening the create or
    edit form leaves a pending deletion as it is, and staging a deletion
    leaves the form as it is. *)
Theorem one_modal_at_a_time (s : State) :
  reachableBy cast disciplined s ->
  exclusive s
  /\ (exists s', openCreateForm s = Ret tt s'
                 /\ isFormVisible s' = true
                 /\ pendingDeleteTask s' = pendingDeleteTask s)
  /\ (forall task, exists s', onEdit task s = Ret tt s'
                              /\ isFormVisible s' = true
                              /\ pendingDeleteTask s' = pendingDeleteTask s)
  /\ (forall task, exists s', handleDeleteTask task s = Ret tt s'
                              /\ pendingDeleteTask s' = Some task
                              /\ isFormVisible s' = isFormVisible s).
Proof.
  intros H. split.
  - induction H as [|s e net H IH [_ Hone]].
    + left. reflexivity.
    + apply event_keeps_exclusive; assumption.
  - split; [|split]; try intros task; eexists; repeat split.
Qed.

End Modals.

(* ------------------------------------------------------------------ *)
(** * Concrete runs *)

Section SampleRuns.

Import App Sample.

Lemma workspace_reached : reachableBy casts disciplined workspace.
Proof.
  unfold workspace. apply reach_event; [|split; exact I].
  unfold withUsers. apply reach_event; [|split; exact I].
  unfold signedIn. apply reach_event; [|split; exact I].
  apply reach_initial.
Qed.

Lemma task7_on_board : cardOffers workspace task7 None.
Proof.
  unfold cardOffers. eexists _, _, _.
  split; [reflexivity|]. split; [left; reflexivity|]. split; [left; reflexivity|].
  repeat split.
Qed.

Lemma staged_reached : reachableBy casts disciplined staged.
Proof.
  change staged
    with (final (run (serves []) (handle casts (ClickDelete task7)) workspace)).
  apply reach_event; [apply workspace_reached|].
  split; [|reflexivity]. split; [discriminate|apply task7_on_board].
Qed.

End SampleRuns.

(** C2, as stated, fails for the form submissions: while a create is in
    flight from the idle workspace the busy marker is absent, and while an
    update of task 7 is in flight it is absent too, not 7. *)
Lemma form_submit_leaves_busy_marker_absent :
  (exists during,
      inFlight (mutate Sample.casts (Create Sample.payload) Sample.workspace)
      = Some (App.postTask Sample.payload, during)
      /\ App.busyTaskId during = None)
  /\ (exists during,
         target (Update Sample.payload) Sample.editing = Some Sample.task7
         /\ inFlight (mutate Sample.casts (Update Sample.payload) Sample.editing)
            = Some (App.putTask Sample.task7 Sample.payload, during)
         /\ App.busyTaskId during = None).
Proof.
  split; eexists; repeat split.
Qed.

(** C3, as stated, fails on a 401: an update of task 7 submitted from the
    open edit form and answered 401 has not succeeded, no refresh is
    requested, and yet the form is closed at the end of the run. *)
Lemma unauthorized_submit_closes_form :
  let r := run (Sample.serves [ Sample.unauthorized ])
               (mutate Sample.casts (Update Sample.payload)) Sample.editing in
  App.isFormVisible Sample.editing = true
  /\ App.editingTask Sample.editing = Some Sample.task7
  /\ requests r = [ (App.putTask Sample.task7 Sample.payload, Sample.unauthorized) ]
  /\ isAccepted Sample.unauthorized = false
  /\ App.isFormVisible (final r) = false
  /\ App.editingTask (final r) = None.
Proof. cbv zeta. repeat split. Qed.

(** C7, as stated, fails on a list with an entry whose [msg] is empty: the
    entries' messages joined are ["Title is required, , Invalid status"],
    the extractor returns ["Title is required, Invalid status"]. *)
Lemma empty_msg_is_skipped :
  errorsList Sample.invalid
  = Some [ JObj [ ("msg", JStr "Title is required") ];
           JObj [ ("msg", JStr "") ];
           JObj [ ("msg", JStr "Invalid status") ] ]
  /\ messageByPriority Sample.casts Sample.invalid
     = "Title is required, , Invalid status"
  /\ App.extractErrorMessage Sample.casts Sample.invalid Sample.workspace
     = Ret "Title is required, Invalid status" Sample.workspace
  /\ App.extractErrorMessage Sample.casts Sample.invalid Sample.workspace
     <> Ret (messageByPriority Sample.casts Sample.invalid) Sample.workspace.
Proof.
  split; [reflexivity|]. split; [reflexivity|]. split; [reflexivity|].
  intros H. vm_compute in H. discriminate H.
Qed.

(** C8, as stated, fails on a password of six spaces: it is empty after
    trimming, yet no local error is set and the login request goes out. *)
Lemma blank_password_reaches_network :
  loginSubmittable Sample.blankPassword
  /\ trim (AuthForm.password (AuthForm.loginData (fst Sample.blankPassword))) = ""
  /\ exists during,
       inFlight (submitAuthForm Sample.casts Sample.blankPassword)
       = Some (App.postLogin (AuthForm.mkLoginData "a@b.com" "      "), during)
       /\ AuthForm.localError (fst during) = None.
Proof.
  split; [repeat split|]. split; [reflexivity|].
  eexists. split; reflexivity.
Qed.

(** C9, as stated, fails: from the workspace, the Delete button of task 7
    and then the Add Task button are both on offer, and after them the
    form is open while the deletion is pending. *)
Lemma both_modals_reachable :
  exists s,
    reachableBy Sample.casts App.enabled s
    /\ App.isFormVisible s = true
    /\ App.pendingDeleteTask s = Some Sample.task7
    /\ ~ exclusive s.
Proof.
  exists (final (run (Sample.serves []) (App.handle Sample.casts App.ClickAddTask)
                     Sample.staged)).
  split; [|split; [reflexivity|split; [reflexivity|]]].
  - apply reach_event.
    + apply (reachableBy_weaken Sample.casts disciplined).
      * intros s e [H _]. exact H.
      * apply staged_reached.
    + split; [discriminate|reflexivity].
  - intros [H|H]; discriminate H.
Qed.

(** ** The theorems at the sample data *)

(** A create from the workspace answered 401. *)
Lemma unauthorized_resets_session_witness :
  let net := Sample.serves [ Sample.unauthorized ] in
  let r := run net (perform Sample.casts (Mutate (Create Sample.payload)))
               Sample.workspace in
  firstRequest (Mutate (Create Sample.payload)) Sample.workspace
  = Some (App.postTask Sample.payload)
  /\ is401 (net 0%nat (App.postTask Sample.payload)) = true
  /\ requests r = [ (App.postTask Sample.payload, Sample.unauthorized) ]
  /\ sessionReset (Some App.sessionExpired) (final r)
  /\ App.error (final r) = None.
Proof.
  cbv zeta. split; [reflexivity|]. split; [reflexivity|].
  pose proof (unauthorized_resets_session Sample.casts
                (Sample.serves [ Sample.unauthorized ])
                (Mutate (Create Sample.payload)) Sample.workspace
                (App.postTask Sample.payload) eq_refl) as R.
  cbv zeta in R. destruct R as (_ & R & _).
  destruct (R eq_refl) as (Hreq & Hreset & Hfields).
  split; [exact Hreq|]. split; [exact Hreset|]. apply Hfields.
Defined.

(** A status change of task 7 from the workspace, accepted and refreshed. *)
Lemma busy_marker_protocol_witness :
  let net := Sample.serves [ Sample.okJson Sample.task7Json;
                             Sample.okJson (JArr [ Sample.task7Json ]) ] in
  let m := PatchStatus Sample.task7 in_progress in
  mutationRequest m Sample.workspace = Some (App.patchTask Sample.task7 in_progress)
  /\ exists during,
       inFlight (mutate Sample.casts m Sample.workspace)
       = Some (App.patchTask Sample.task7 in_progress, during)
       /\ App.busyTaskId during = Some 7
       /\ App.busyTaskId (final (run net (mutate Sample.casts m) Sample.workspace)) = None.
Proof.
  cbv zeta. split; [reflexivity|].
  destruct (busy_marker_protocol Sample.casts
              (Sample.serves [ Sample.okJson Sample.task7Json;
                               Sample.okJson (JArr [ Sample.task7Json ]) ])
              (PatchStatus Sample.task7 in_progress) Sample.workspace
              (App.patchTask Sample.task7 in_progress) eq_refl)
    as (during & Hflight & Hbusy & _ & Hend).
  exists during. split; [exact Hflight|]. split; [exact Hbusy|exact Hend].
Defined.

(** An update of task 7 from the edit form, accepted, with the refresh
    returning the task list. *)
Lemma mutation_refresh_and_form_witness :
  let accepted := mkResponse 200 "OK" (Parsed Sample.task7Json) in
  let net := Sample.serves [ Resolved accepted;
                             Sample.okJson (JArr [ Sample.task7Json ]) ] in
  let r := run net (mutate Sample.casts (Update Sample.payload)) Sample.editing in
  mutationRequest (Update Sample.payload) Sample.editing
  = Some (App.putTask Sample.task7 Sample.payload)
  /\ requests r = [ (App.putTask Sample.task7 Sample.payload, Resolved accepted);
                    (App.getTasks, Sample.okJson (JArr [ Sample.task7Json ])) ]
  /\ App.tasks (final r) = [ Sample.task7 ]
  /\ App.isFormVisible (final r) = false.
Proof.
  cbv zeta. split; [reflexivity|].
  pose proof (mutation_refresh_and_form Sample.casts
                (Sample.serves [ Resolved (mkResponse 200 "OK" (Parsed Sample.task7Json));
                                 Sample.okJson (JArr [ Sample.task7Json ]) ])
                (Update Sample.payload) Sample.editing
                (App.putTask Sample.task7 Sample.payload) eq_refl) as (Hsuccess & _ & _).
  destruct (Hsuccess _ eq_refl eq_refl) as (Hreq & Htasks & Hform).
  split; [exact Hreq|]. split; [exact Htasks|]. apply (Hform eq_refl).
Defined.

(** A create from the workspace rejected by validation. *)
Lemma failure_keeps_collections_witness :
  let net := Sample.serves [ Resolved Sample.invalid ] in
  let r := run net (perform Sample.casts (Mutate (Create Sample.payload)))
               Sample.workspace in
  firstRequest (Mutate (Create Sample.payload)) Sample.workspace
  = Some (App.postTask Sample.payload)
  /\ net 0%nat (App.postTask Sample.payload) = Resolved Sample.invalid
  /\ failedResponse Sample.invalid
  /\ requests r = [ (App.postTask Sample.payload, Resolved Sample.invalid) ]
  /\ App.error (final r) = Some "Title is required, Invalid status"
  /\ App.tasks (final r) = [ Sample.task7 ]
  /\ App.users (final r) = [ Sample.alice ].
Proof.
  cbv zeta.
  assert (Hfail : failedResponse Sample.invalid) by (split; [reflexivity|discriminate]).
  split; [reflexivity|]. split; [reflexivity|]. split; [exact Hfail|].
  pose proof (failure_keeps_collections Sample.casts
                (Sample.serves [ Resolved Sample.invalid ])
                (Mutate (Create Sample.payload)) Sample.workspace
                (App.postTask Sample.payload) eq_refl) as R.
  cbv zeta in R. destruct R as (_ & R & _).
  exact (R Sample.invalid eq_refl Hfail).
Defined.

(** A login submitted with an e-mail of three spaces. *)
Lemma login_validation_witness :
  loginSubmittable Sample.emptyEmail
  /\ submitAuthForm Sample.casts Sample.emptyEmail
     = Ret tt (AuthForm.setLocalError (Some "Enter your email and password.")
                                      (fst Sample.emptyEmail),
               App.setAuthError None (snd Sample.emptyEmail)).
Proof.
  assert (H : loginSubmittable Sample.emptyEmail) by (repeat split).
  split; [exact H|].
  exact (login_validation Sample.casts Sample.emptyEmail H).
Defined.

(** The workspace with the deletion of task 7 staged. *)
Lemma one_modal_at_a_time_witness :
  reachableBy Sample.casts disciplined Sample.staged
  /\ exclusive Sample.staged.
Proof.
  split; [apply staged_reached|].
  apply (one_modal_at_a_time Sample.casts Sample.staged staged_reached).
Defined.

(** Confirming in the workspace with nothing staged. *)
Lemma confirmDelete_idle_witness :
  App.pendingDeleteTask Sample.workspace = None
  /\ App.handleConfirmDelete Sample.casts Sample.workspace = Ret tt Sample.workspace.
Proof.
  split; [reflexivity|].
  apply (confirmDelete_idle Sample.casts Sample.workspace eq_refl).
Defined.


(* ------------------------------------------------------------------ *)
(** * Further properties of the components *)

(** Symbolic execution as [exec], with the task form and the inputs of
    the login form. *)
Ltac exec_forms :=
  cbn [ret throw bind bindP try_catch catchP try_finally get modify fetch
       readJson zoom zoomP inFlight run runFrom result final requests
       fst snd negb
       App.closeForm App.resetSession App.handleUnauthorized
       App.loadUsers App.refreshTasks App.loadCurrentUser App.usersEffect
       App.tasksEffect App.openCreateForm App.handleLogin App.handleRegister
       App.handleLogout App.handleCreateTask App.handleUpdateTask
       App.handleDeleteTask App.handleConfirmDelete App.handleCancelDelete
       App.handleUpdateStatus App.handleFormSubmit App.onEdit App.handle
       App.authFormProps App.taskFormProps
       AuthForm.own AuthForm.parent AuthForm.handleSubmit
       AuthForm.handleModeToggle AuthForm.mode AuthForm.onModeChange
       AuthForm.onLogin AuthForm.onRegister AuthForm.isSubmitting
       AuthForm.error AuthForm.isLoading AuthForm.onClearError
       AuthForm.changeEmail AuthForm.changePassword AuthForm.changeName
       AuthForm.changeConfirmPassword
       TaskForm.own TaskForm.parent TaskForm.handleSubmit TaskForm.handleChange
       TaskForm.resetEffect TaskForm.onSubmit TaskForm.onCancel
       TaskForm.initialTask TaskForm.mode TaskForm.isSubmitting
       authenticate].

(** Case analysis on the answers of the server [net] and on what the
    handler reads, reusing what is already fixed. *)
Ltac decide_with net :=
  exec_forms;
  repeat (match goal with
          | H : net ?n ?rq = _ |- context [net ?n ?rq] => rewrite H
          | H : ok ?r = _ |- context [ok ?r] => rewrite H
          | H : json ?r = _ |- context [match json ?r with _ => _ end] => rewrite H
          | H : App.currentUser ?s = _ |- context [match App.currentUser ?s with _ => _ end] =>
              rewrite H
          | H : App.editingTask ?s = _ |- context [match App.editingTask ?s with _ => _ end] =>
              rewrite H
          | H : App.pendingDeleteTask ?s = _
            |- context [match App.pendingDeleteTask ?s with _ => _ end] => rewrite H
          | |- context [bindP (App.extractErrorMessage ?c ?r ?s) _] =>
              rewrite (extractErrorMessage_returns c r s)
          | |- context [match net ?n ?rq with _ => _ end] => destruct (net n rq) eqn:?
          | |- context [if negb (ok ?r) then _ else _] => destruct (ok r) eqn:?
          | |- context [if ok ?r then _ else _] => destruct (ok r) eqn:?
          | |- context [if (Net.status ?r =? 401) then _ else _] =>
              destruct (Net.status r =? 401) eqn:?
          | |- context [match json ?r with _ => _ end] => destruct (json r) eqn:?
          | |- context [match App.currentUser ?s with _ => _ end] =>
              destruct (App.currentUser s) eqn:?
          | |- context [match App.editingTask ?s with _ => _ end] =>
              destruct (App.editingTask s) eqn:?
          | |- context [match App.pendingDeleteTask ?s with _ => _ end] =>
              destruct (App.pendingDeleteTask s) eqn:?
          | |- context [match App.busyTaskId ?s with _ => _ end] =>
              destruct (App.busyTaskId s) eqn:?
          | |- context [if negb ?c then _ else _] => destruct c eqn:?
          | |- context [if ?c then _ else _] => destruct c eqn:?
          end; exec_forms).

(** ** Session controller *)

Section Session.

Import App.

Variable cast : Casts.
Variable net : nat -> Request -> FetchOutcome.

(** X1.  A second [resetSession] makes the first one unobservable: the
    state after the two calls is the state after the second alone, so
    resetting twice with one message is resetting once. *)
Theorem resetSession_twice (first second : option string) (s : State) :
  (resetSession first ;; resetSession second) s = resetSession second s
  /\ (resetSession second ;; resetSession second) s = resetSession second s.
Proof. split; vm_compute; reflexivity. Qed.

(** X2.  Logging out sends the one request to the logout endpoint and,
    whether that request is rejected or answered with any status, ends in
    the state [resetSession] leaves when called without a message. *)
Theorem logout_always_resets (s : State) :
  let r := run net handleLogout s in
  requests r = [(postLogout, net 0%nat postLogout)]
  /\ result r = Returned tt
  /\ resetSession None s = Ret tt (final r)
  /\ sessionReset None (final r).
Proof.
  cbv zeta. exec_forms. destruct (net 0%nat postLogout); exec_forms.
  all: repeat split.
Qed.

(** X3.  The session check on mount sends the one who-am-I request, always
    ends with [authLoading] cleared and never shows a message.  A rejected
    fetch or a 2xx body that does not parse changes nothing else, and
    neither does a 2xx body that is [null]: reading its [user] throws, and
    the catch only logs.  Any answer outside 2xx, 401 or not, resets the
    session silently.  Any other parsed 2xx body has its [user] member
    stored as the current user (no user when the member is missing or
    falsy) and clears [authError]. *)
Theorem session_check_outcomes (s : State) :
  let r := run net (loadCurrentUser cast) s in
  requests r = [(getMe, net 0%nat getMe)]
  /\ result r = Returned tt
  /\ authLoading (final r) = false
  /\ match net 0%nat getMe with
     | Rejected _ => final r = setAuthLoading false s
     | Resolved response =>
         if ok response then
           match json response with
           | Parsed data =>
               if isNull data then final r = setAuthLoading false s
               else
                 final r
                 = setAuthLoading false
                     (setAuthError None (setCurrentUser (userRead cast data) s))
           | Unparsable _ => final r = setAuthLoading false s
           end
         else sessionReset None (final r)
     end.
Proof.
  cbv zeta. decide_with net.
  all: repeat split.
Qed.

(** X4.  Logging in and registering send the one request with the data
    handed over and always end with [authSubmitting] cleared.  A parsed
    2xx answer other than [null] has its [user] member stored as the
    current user (no user when the member is missing or falsy), shows the
    login mode and clears [authError].  Any answer outside 2xx, 401
    included, puts the extracted message in [authError] and writes nothing
    else: the session is not reset.  A rejected fetch or an unparsable 2xx
    body puts the error's message there, or the fixed fallback when what
    was thrown is not an [Error]; a 2xx body that is [null] puts there the
    message of the TypeError that reading its [user] throws, and no user
    is stored. *)
Theorem authenticate_outcomes (c : Credentials) (s : State) :
  let r := run net (authenticate cast c) s in
  requests r = [(authRequest c, net 0%nat (authRequest c))]
  /\ result r = Returned tt
  /\ authSubmitting (final r) = false
  /\ match net 0%nat (authRequest c) with
     | Rejected e =>
         final r = setAuthSubmitting false
                     (setAuthError (Some (messageOr (authFallback c) e)) s)
     | Resolved response =>
         if ok response then
           match json response with
           | Parsed data =>
               if isNull data then
                 final r
                 = setAuthSubmitting false
                     (setAuthError (Some (typeErrorMessage cast (NullRead "user"))) s)
               else
                 final r
                 = setAuthSubmitting false
                     (setAuthError None
                        (setAuthMode AuthForm.login
                           (setCurrentUser (userRead cast data) s)))
           | Unparsable e =>
               final r = setAuthSubmitting false
                           (setAuthError (Some (messageOr (authFallback c) e)) s)
           end
         else
           final r = setAuthSubmitting false
                       (setAuthError (Some (extractedMessage cast response)) s)
     end.
Proof.
  cbv zeta. destruct c as [d|d]; cbn [authRequest authFallback]; decide_with net.
  all: repeat split; vm_compute; reflexivity.
Qed.

End Session.

(** ** Collection synchronizer and task mutations *)

Section Collections.

Import App.

Variable cast : Casts.
Variable net : nat -> Request -> FetchOutcome.

Lemma ok_not_401 (response : Response) :
  ok response = true -> (Net.status response =? 401) = false.
Proof.
  unfold ok. intros H. apply andb_true_iff in H. destruct H as [_ H].
  apply Z.leb_le in H. apply Z.eqb_neq. lia.
Qed.

(** X5.  Each collection fetch sends its one request and always ends with
    its own loading flag cleared.  A parsed 2xx body replaces the
    collection with its reading and clears [error]; a rejected fetch or a
    2xx body that does not parse stores the error's message (the fixed
    fallback for a thrown non-[Error]) and leaves the collection as it
    was. *)
Theorem collection_fetch_outcomes (s : State) :
  let rt := run net (refreshTasks cast) s in
  let ru := run net (loadUsers cast) s in
  (requests rt = [(getTasks, net 0%nat getTasks)]
   /\ result rt = Returned tt
   /\ tasksLoading (final rt) = false
   /\ (forall response data,
          net 0%nat getTasks = Resolved response -> ok response = true ->
          json response = Parsed data ->
          final rt = setTasksLoading false (setError None (setTasks (asTasks cast data) s)))
   /\ (forall response e,
          net 0%nat getTasks = Resolved response -> ok response = true ->
          json response = Unparsable e ->
          final rt = setTasksLoading false
                       (setError (Some (messageOr "Failed to load tasks." e)) s))
   /\ (forall e,
          net 0%nat getTasks = Rejected e ->
          final rt = setTasksLoading false
                       (setError (Some (messageOr "Failed to load tasks." e)) s)))
  /\ (requests ru = [(getUsers, net 0%nat getUsers)]
      /\ result ru = Returned tt
      /\ usersLoading (final ru) = false
      /\ (forall response data,
             net 0%nat getUsers = Resolved response -> ok response = true ->
             json response = Parsed data ->
             final ru = setUsersLoading false (setError None (setUsers (asUsers cast data) s)))
      /\ (forall response e,
             net 0%nat getUsers = Resolved response -> ok response = true ->
             json response = Unparsable e ->
             final ru = setUsersLoading false
                          (setError (Some (messageOr "Failed to load users." e)) s))
      /\ (forall e,
             net 0%nat getUsers = Rejected e ->
             final ru = setUsersLoading false
                          (setError (Some (messageOr "Failed to load users." e)) s))).
Proof.
  cbv zeta. split.
  - split; [decide_with net; reflexivity|].
    split; [decide_with net; reflexivity|].
    split; [decide_with net; reflexivity|].
    split; [|split].
    + intros response data Hnet Hok Hjson. pose proof (ok_not_401 _ Hok) as H401.
      exec_forms. rewrite Hnet. exec_forms. rewrite H401, Hok. exec_forms.
      rewrite Hjson. vm_compute. reflexivity.
    + intros response e Hnet Hok Hjson. pose proof (ok_not_401 _ Hok) as H401.
      exec_forms. rewrite Hnet. exec_forms. rewrite H401, Hok. exec_forms.
      rewrite Hjson. vm_compute. reflexivity.
    + intros e Hnet. exec_forms. rewrite Hnet. vm_compute. reflexivity.
  - split; [decide_with net; reflexivity|].
    split; [decide_with net; reflexivity|].
    split; [decide_with net; reflexivity|].
    split; [|split].
    + intros response data Hnet Hok Hjson. pose proof (ok_not_401 _ Hok) as H401.
      exec_forms. rewrite Hnet. exec_forms. rewrite H401, Hok. exec_forms.
      rewrite Hjson. vm_compute. reflexivity.
    + intros response e Hnet Hok Hjson. pose proof (ok_not_401 _ Hok) as H401.
      exec_forms. rewrite Hnet. exec_forms. rewrite H401, Hok. exec_forms.
      rewrite Hjson. vm_compute. reflexivity.
    + intros e Hnet. exec_forms. rewrite Hnet. vm_compute. reflexivity.
Qed.

(** X6.  The effects keyed on the current user follow the session: in the
    state a logout leaves they return at once, without a request and
    without a change.  After a login or registration accepted with a
    parsed body other than [null], the current user is the [user] member
    read from that body: when the read gives a user, each effect is
    suspended in its collection fetch with its loading flag raised; when
    it gives none (the member is missing or falsy), each effect empties
    its collection and returns without a request.  After one accepted
    with the body [null] the current user is who it was. *)
Theorem effects_follow_session (s : State) (c : Credentials) :
  (let out := final (run net handleLogout s) in
   usersEffect cast out = Ret tt out /\ tasksEffect cast out = Ret tt out)
  /\ (forall response data,
         net 0%nat (authRequest c) = Resolved response -> ok response = true ->
         json response = Parsed data -> isNull data = false ->
         let signed := final (run net (authenticate cast c) s) in
         currentUser signed = userRead cast data
         /\ match userRead cast data with
            | Some _ =>
                inFlight (usersEffect cast signed)
                = Some (getUsers, setUsersLoading true signed)
                /\ inFlight (tasksEffect cast signed)
                   = Some (getTasks, setTasksLoading true signed)
            | None =>
                usersEffect cast signed = Ret tt (setUsers [] signed)
                /\ tasksEffect cast signed = Ret tt (setTasks [] signed)
            end)
  /\ (forall response,
         net 0%nat (authRequest c) = Resolved response -> ok response = true ->
         json response = Parsed JNull ->
         currentUser (final (run net (authenticate cast c) s)) = currentUser s).
Proof.
  split; [|split].
  - cbv zeta. exec_forms. destruct (net 0%nat postLogout); exec_forms.
    all: split; vm_compute; reflexivity.
  - intros response data Hnet Hok Hjson Hnull. cbv zeta.
    destruct c as [d|d]; cbn [authRequest] in Hnet; exec_forms;
      rewrite Hnet; exec_forms; rewrite Hok; exec_forms; rewrite Hjson; exec_forms;
      rewrite Hnull; exec_forms.
    all: split; [reflexivity|].
    all: destruct (userRead cast data); exec_forms; split; reflexivity.
  - intros response Hnet Hok Hjson.
    destruct c as [d|d]; cbn [authRequest] in Hnet; exec_forms;
      rewrite Hnet; exec_forms; rewrite Hok; exec_forms; rewrite Hjson; reflexivity.
Qed.

(** X7.  A confirmed delete keeps the deletion staged exactly when the
    delete itself failed: after a rejected fetch or an answer outside 2xx
    other than 401 the task is still pending, and after an accepted delete
    the pending deletion is cleared whatever the refresh that follows
    answers.  The busy marker is cleared in every case. *)
Theorem delete_staging (s : State) (task : Task) :
  pendingDeleteTask s = Some task ->
  let r := run net (handleConfirmDelete cast) s in
  busyTaskId (final r) = None
  /\ match net 0%nat (deleteTask task) with
     | Rejected e =>
         requests r = [(deleteTask task, Rejected e)]
         /\ pendingDeleteTask (final r) = Some task
         /\ error (final r) = Some (messageOr "Failed to delete task." e)
     | Resolved response =>
         if ok response then
           requests r = [(deleteTask task, Resolved response);
                         (getTasks, net 1%nat getTasks)]
           /\ pendingDeleteTask (final r) = None
         else if Net.status response =? 401 then
           pendingDeleteTask (final r) = None
         else
           requests r = [(deleteTask task, Resolved response)]
           /\ pendingDeleteTask (final r) = Some task
     end.
Proof.
  intros Hpending. cbv zeta. split.
  - exec_forms. rewrite Hpending. decide_with net; reflexivity.
  - exec_forms. rewrite Hpending. exec_forms.
    destruct (net 0%nat (deleteTask task)) as [e|response] eqn:Hnet; exec_forms.
    + repeat split. cbn. exact Hpending.
    + destruct (ok response) eqn:Hok.
      * rewrite (ok_not_401 _ Hok). decide_with net.
        all: repeat split.
      * destruct (Net.status response =? 401) eqn:H401; decide_with net.
        all: repeat split; cbn; try exact Hpending.
Qed.

(** X8.  Which request a form submission sends follows the last way the
    form was opened: after Add Task it is the create request, even when a
    task was being edited before, and after Edit on a task it is the
    update request addressed to that task's id.  An update with the form
    closed sends nothing. *)
Theorem form_submit_dispatch (payload : TaskPayload) (task : Task) (s : State) :
  (exists during,
      inFlight ((openCreateForm ;; handleFormSubmit cast payload) s)
      = Some (postTask payload, during)
      /\ editingTask during = None /\ isSubmitting during = true)
  /\ (exists during,
         inFlight ((onEdit task ;; handleFormSubmit cast payload) s)
         = Some (putTask task payload, during)
         /\ editingTask during = Some task /\ isSubmitting during = true)
  /\ (closeForm ;; handleUpdateTask cast payload) s
     = Ret tt (setEditingTask None (setIsFormVisible false s))
  /\ method (postTask payload) = POST
  /\ url (postTask payload) = "/api/tasks"
  /\ method (putTask task payload) = PUT
  /\ url (putTask task payload) = "/api/tasks/" ++ decimal (id task).
Proof.
  split; [eexists; repeat split|].
  split; [eexists; repeat split|].
  repeat split.
Qed.

(** X9.  The body of a create or update request always has a status: the
    payload's when it has one, otherwise [todo] for a create and the
    edited task's current status for an update.  Title and assignee are
    the payload's, an absent assignee as [null]; an absent description is
    left out of the body. *)
Theorem request_body_members (payload : TaskPayload) (editing : Task) :
  exists created updated,
    body (postTask payload) = Some (JObj created)
    /\ body (putTask editing payload) = Some (JObj updated)
    /\ member "status" created
       = Some (JStr (statusName (match p_status payload with
                                 | Some st => st
                                 | None => todo
                                 end)))
    /\ member "status" updated
       = Some (JStr (statusName (match p_status payload with
                                 | Some st => st
                                 | None => Types.status editing
                                 end)))
    /\ Forall (fun members =>
                 member "title" members = Some (JStr (p_title payload))
                 /\ member "userId" members
                    = Some (match p_userId payload with
                            | Some u => JNum u
                            | None => JNull
                            end)
                 /\ member "description" members
                    = match p_description payload with
                      | Absent => None
                      | Null => Some JNull
                      | Present d => Some (JStr d)
                      end)
              [created; updated].
Proof.
  eexists _, _. split; [reflexivity|]. split; [reflexivity|].
  destruct (p_description payload); cbn; repeat split; repeat constructor.
Qed.

End Collections.

(** ** The login and register form *)

Section AuthFormProperties.

Import AuthForm App.

Variable cast : Casts.

Lemma nonEmpty_spec (t : string) : nonEmpty t = true <-> t <> "".
Proof. destruct t; simpl; split; congruence. Qed.

Lemma nonEmpty_false (t : string) : nonEmpty t = false <-> t = "".
Proof. destruct t; simpl; split; congruence. Qed.

(** X10.  A register submission sends its request only when the name and
    the e-mail are non-empty after trimming, the password is at least six
    characters long and equals the confirmation; the request then carries
    the trimmed name and e-mail and both passwords as typed.  Otherwise no
    request is sent and the local error names the first failed check, in
    the order: a missing field, a short password, a mismatch. *)
Theorem register_validation (w : AuthScreen) :
  registerSubmittable w ->
  let d := registerData (fst w) in
  let complete := trim (reg_name d) <> "" /\ trim (reg_email d) <> ""
                  /\ reg_password d <> "" in
  let refused message :=
    submitAuthForm cast w
    = Ret tt (AuthForm.setLocalError (Some message) (fst w), setAuthError None (snd w)) in
  (~ complete -> refused "Complete all fields to continue.")
  /\ (complete -> (String.length (reg_password d) < 6)%nat ->
      refused "Password must be at least 6 characters.")
  /\ (complete -> (6 <= String.length (reg_password d))%nat ->
      reg_password d <> reg_confirmPassword d ->
      refused "Passwords do not match.")
  /\ (complete -> (6 <= String.length (reg_password d))%nat ->
      reg_password d = reg_confirmPassword d ->
      inFlight (submitAuthForm cast w)
      = Some (postRegister (mkRegisterData (trim (reg_name d)) (trim (reg_email d))
                                           (reg_password d) (reg_confirmPassword d)),
              (AuthForm.setLocalError None (fst w),
               setAuthError None (setAuthSubmitting true (setAuthError None (snd w)))))).
Proof.
  destruct w as [form app]. unfold registerSubmittable. cbn [fst snd].
  intros (Hmode & Hsub & Hload). cbv zeta.
  unfold submitAuthForm. exec_forms. rewrite Hmode, Hsub, Hload.
  cbn [orb reg_name reg_email reg_password reg_confirmPassword].
  set (d := registerData form).
  destruct (nonEmpty (trim (reg_name d))) eqn:Hname;
    destruct (nonEmpty (trim (reg_email d))) eqn:Hemail;
    destruct (nonEmpty (reg_password d)) eqn:Hpass;
    cbn [negb orb].
  all: repeat match goal with
              | H : nonEmpty _ = true |- _ => apply nonEmpty_spec in H
              | H : nonEmpty _ = false |- _ => apply nonEmpty_false in H
              end.
  2-8: (split; [intros _; reflexivity|]);
       repeat split; intros (Hn & He & Hp); congruence.
  split; [intros Hnot; exfalso; apply Hnot; auto|].
  destruct (String.length (reg_password d) <? 6)%nat eqn:Hlen.
  - apply Nat.ltb_lt in Hlen. repeat split; intros _ Hge; try reflexivity; lia.
  - apply Nat.ltb_ge in Hlen.
    destruct (String.eqb (reg_password d) (reg_confirmPassword d)) eqn:Heq;
      cbn [negb].
    + apply String.eqb_eq in Heq. repeat split; intros; try reflexivity; try lia.
      congruence.
    + apply String.eqb_neq in Heq. repeat split; intros; try reflexivity; try lia.
      congruence.
Qed.

(** X11.  While a submission is in progress or the session check has not
    come back, a submit event is dropped whole, in either mode: nothing is
    validated, no error is cleared or set, nothing is sent. *)
Theorem submit_dropped_while_busy (w : AuthScreen) :
  authSubmitting (snd w) = true \/ authLoading (snd w) = true ->
  submitAuthForm cast w = Ret tt w.
Proof.
  destruct w as [form app]. cbn [fst snd]. intros H.
  unfold submitAuthForm. exec_forms.
  destruct H as [-> | ->]; [|rewrite orb_true_r]; reflexivity.
Qed.

(** X12.  The mode toggle sends nothing and always clears the server
    error.  Pressing the toggle of the mode already shown leaves the form
    as it is.  Switching shows the other mode, clears the local error,
    empties the fields of the form being left and keeps what was typed
    into the form being shown. *)
Theorem mode_toggle (nextMode : AuthMode) (w : AuthScreen) :
  exists w',
    toggleAuthMode cast nextMode w = Ret tt w'
    /\ authMode (snd w') = nextMode
    /\ authError (snd w') = None
    /\ (authMode (snd w) = nextMode -> fst w' = fst w)
    /\ (authMode (snd w) <> nextMode ->
        localError (fst w') = None
        /\ match nextMode with
           | login => loginData (fst w') = loginData (fst w)
                      /\ registerData (fst w') = mkRegisterData "" "" "" ""
           | register => registerData (fst w') = registerData (fst w)
                         /\ loginData (fst w') = mkLoginData "" ""
           end).
Proof.
  destruct w as [form app]. unfold toggleAuthMode. exec_forms.
  destruct nextMode, (authMode app) eqn:Hmode; cbn [AuthMode_eqb negb]; exec_forms.
  all: eexists; split; [reflexivity|]; cbn [fst snd].
  all: repeat split; try (cbn; congruence); try (intros; congruence).
  all: try (destruct form; reflexivity).
Qed.

(** X13.  Typing into an input sends nothing, makes the input show what
    was typed, leaves the other inputs as they were, and clears the
    server error only: the local error is not written, so a local
    validation message stays on display while the user types. *)
Theorem typing_keeps_local_error (input : AuthInput) (value : string) (w : AuthScreen) :
  exists w',
    typeInto cast input value w = Ret tt w'
    /\ snd w' = setAuthError None (snd w)
    /\ localError (fst w') = localError (fst w)
    /\ inputValue w' input = value
    /\ (forall other, other <> input -> inputValue w' other = inputValue w other)
    /\ shownAuthError cast w'
       = match localError (fst w) with
         | Some message => if nonEmpty message then Some message else None
         | None => None
         end.
Proof.
  destruct w as [form app]. unfold typeInto, shownAuthError, inputValue, activeError.
  destruct input; exec_forms; destruct (authMode app) eqn:Hmode; exec_forms.
  all: eexists; split; [reflexivity|]; cbn [fst snd].
  all: split; [reflexivity|]; split; [reflexivity|].
  all: split; [cbn; rewrite ?Hmode; reflexivity|].
  all: split; [intros other Hother; destruct other; try congruence; cbn;
               rewrite ?Hmode; reflexivity|].
  all: cbn; destruct (localError form) as [m|]; [destruct (nonEmpty m)|]; reflexivity.
Qed.

End AuthFormProperties.

(** ** The task form *)

Section TaskFormProperties.

Import App.

Variable cast : Casts.
Variable Number : string -> Z.
Variable asTaskStatus : string -> TaskStatus.

Lemma blank_title_is_short (t : string) :
  negb (nonEmpty t) || (String.length (trim t) <? 3)%nat
  = (String.length (trim t) <? 3)%nat.
Proof. destruct t; reflexivity. Qed.

(** What a valid submit hands to [App]. *)
Lemma submitTaskForm_runs (w : TaskScreen) :
  let f := TaskForm.formState (fst w) in
  submitTaskForm cast w
  = if (String.length (trim (TaskForm.title f)) <? 3)%nat then
      Ret tt (TaskForm.setErrors (Some "Title must be at least 3 characters long.") (fst w),
              snd w)
    else
      TaskForm.parent
        (handleFormSubmit cast
           (mkTaskPayload (trim (TaskForm.title f))
                          (Present (trim (TaskForm.description f)))
                          (TaskForm.userId f)
                          (Some (TaskForm.status f))))
        (TaskForm.setErrors None (fst w), snd w).
Proof.
  destruct w as [form app]. cbv zeta. unfold submitTaskForm.
  cbn [TaskForm.handleSubmit bind bindP get fst snd].
  rewrite blank_title_is_short.
  destruct (String.length (trim (TaskForm.title (TaskForm.formState form))) <? 3)%nat;
    reflexivity.
Qed.

(** A valid submit is suspended in the request of the form's payload. *)
Lemma valid_submit_in_flight (w : TaskScreen) :
  let f := TaskForm.formState (fst w) in
  let payload := mkTaskPayload (trim (TaskForm.title f))
                               (Present (trim (TaskForm.description f)))
                               (TaskForm.userId f)
                               (Some (TaskForm.status f)) in
  (String.length (trim (TaskForm.title f)) <? 3)%nat = false ->
  inFlight (submitTaskForm cast w)
  = Some (match editingTask (snd w) with
          | Some editing => putTask editing payload
          | None => postTask payload
          end,
          (TaskForm.setErrors None (fst w),
           setError None (setIsSubmitting true (snd w)))).
Proof.
  cbv zeta. intros Hlen. rewrite submitTaskForm_runs. cbv zeta. rewrite Hlen.
  destruct w as [form app]. cbn [fst snd].
  exec_forms. destruct (editingTask app) eqn:Hedit; exec_forms; rewrite ?Hedit; exec_forms.
  all: reflexivity.
Qed.

(** X14.  The task form submits only a title of at least three characters
    after trimming.  A shorter one, the empty one included, sets the
    form's error and reaches neither [App] nor the network.  A valid one
    clears the form's error and sends the create request, or the update
    request for the task being edited, with the title and description
    trimmed and with the assignee and status of the form. *)
Theorem task_form_validation (w : TaskScreen) :
  let f := TaskForm.formState (fst w) in
  if (String.length (trim (TaskForm.title f)) <? 3)%nat then
    submitTaskForm cast w
    = Ret tt (TaskForm.setErrors (Some "Title must be at least 3 characters long.") (fst w),
              snd w)
  else
    let payload := mkTaskPayload (trim (TaskForm.title f))
                                 (Present (trim (TaskForm.description f)))
                                 (TaskForm.userId f)
                                 (Some (TaskForm.status f)) in
    exists during,
      inFlight (submitTaskForm cast w)
      = Some (match editingTask (snd w) with
              | Some editing => putTask editing payload
              | None => postTask payload
              end, during)
      /\ TaskForm.errors (fst during) = None
      /\ TaskForm.formState (fst during) = f
      /\ isSubmitting (snd during) = true.
Proof.
  cbv zeta.
  destruct (String.length (trim (TaskForm.title (TaskForm.formState (fst w)))) <? 3)%nat
    eqn:Hlen.
  - rewrite submitTaskForm_runs. cbv zeta. rewrite Hlen. reflexivity.
  - eexists. split; [apply (valid_submit_in_flight w Hlen)|]. repeat split.
Qed.

(** X15.  Saving the edit form of a task without changing anything
    depends on the task's own title: when it has at least three characters
    after trimming, the update request goes to that task's id with the
    task's own status and assignee and its title trimmed, a [null]
    description being sent as the empty string; when it is shorter, the
    form refuses it with its error and nothing is sent. *)
Theorem unchanged_edit_round_trip (s : State) (task : Task) :
  editingTask s = Some task ->
  let payload :=
    mkTaskPayload (trim (Types.title task))
                  (Present (trim (match Types.description task with
                                  | Some d => d
                                  | None => ""
                                  end)))
                  (Types.userId task)
                  (Some (Types.status task)) in
  (if (String.length (trim (Types.title task)) <? 3)%nat then
     submitTaskForm cast (mountedTaskForm s)
     = Ret tt (TaskForm.setErrors (Some "Title must be at least 3 characters long.")
                                  (fst (mountedTaskForm s)),
               s)
   else
     exists during,
       inFlight (submitTaskForm cast (mountedTaskForm s))
       = Some (putTask task payload, during))
  /\ url (putTask task payload) = taskUrl (id task)
  /\ (exists members,
         body (putTask task payload) = Some (JObj members)
         /\ member "status" members = Some (JStr (statusName (Types.status task)))
         /\ (Types.description task = None ->
             member "description" members = Some (JStr ""))).
Proof.
  intros Hedit. cbv zeta. split; [|split; [reflexivity|]].
  - destruct (String.length (trim (Types.title task)) <? 3)%nat eqn:Hlen.
    + rewrite submitTaskForm_runs. cbv zeta.
      unfold mountedTaskForm. cbn [fst snd]. rewrite Hedit.
      cbn [TaskForm.initialState TaskForm.buildInitialState TaskForm.formState
           TaskForm.title]. rewrite Hlen. reflexivity.
    + pose proof (valid_submit_in_flight (mountedTaskForm s)) as H. cbv zeta in H.
      unfold mountedTaskForm in *. cbn [fst snd] in H. rewrite Hedit in H.
      cbn [TaskForm.initialState TaskForm.buildInitialState TaskForm.formState
           TaskForm.title TaskForm.description TaskForm.userId TaskForm.status] in H.
      eexists. rewrite Hedit. exact (H Hlen).
  - eexists. split; [reflexivity|]. split; [reflexivity|].
    intros ->. reflexivity.
Qed.

(** X16.  What is typed into the title is what the next submit validates
    and sends: after a change of the title, a submit is refused when the
    new title is shorter than three characters after trimming, and
    otherwise sends the new title trimmed with the description, assignee
    and status as they were.  Choosing the empty option of the assignee
    select makes the next valid submit carry no assignee.  The change
    itself sends nothing and does not touch the form's error. *)
Theorem change_then_submit (value : string) (w : TaskScreen) :
  let f := TaskForm.formState (fst w) in
  let request payload :=
    match editingTask (snd w) with
    | Some editing => putTask editing payload
    | None => postTask payload
    end in
  (forall field, exists form',
        TaskForm.handleChange Number asTaskStatus field value w = Ret tt (form', snd w)
        /\ TaskForm.errors form' = TaskForm.errors (fst w))
  /\ (if (String.length (trim value) <? 3)%nat then
        exists form',
          changeThenSubmit cast Number asTaskStatus TaskForm.title_field value w
          = Ret tt (form', snd w)
          /\ TaskForm.errors form' = Some "Title must be at least 3 characters long."
      else
        exists during,
          inFlight (changeThenSubmit cast Number asTaskStatus TaskForm.title_field value w)
          = Some (request (mkTaskPayload (trim value)
                                         (Present (trim (TaskForm.description f)))
                                         (TaskForm.userId f)
                                         (Some (TaskForm.status f))), during))
  /\ ((3 <= String.length (trim (TaskForm.title f)))%nat ->
      exists during,
        inFlight (changeThenSubmit cast Number asTaskStatus TaskForm.userId_field "" w)
        = Some (request (mkTaskPayload (trim (TaskForm.title f))
                                       (Present (trim (TaskForm.description f)))
                                       None
                                       (Some (TaskForm.status f))), during)).
Proof.
  destruct w as [form app]. cbv zeta. cbn [fst snd]. split; [|split].
  - intros field. destruct field; eexists; split; reflexivity.
  - destruct (String.length (trim value) <? 3)%nat eqn:Hlen.
    + eexists. split.
      * unfold changeThenSubmit.
        cbn [bind bindP TaskForm.handleChange TaskForm.own modify fst snd].
        rewrite submitTaskForm_runs. cbv zeta.
        cbn [fst snd TaskForm.setFormState TaskForm.formState TaskForm.title].
        rewrite Hlen. reflexivity.
      * reflexivity.
    + eexists.
      exact (valid_submit_in_flight
               (TaskForm.setFormState
                  (TaskForm.mkFormState value
                     (TaskForm.description (TaskForm.formState form))
                     (TaskForm.userId (TaskForm.formState form))
                     (TaskForm.status (TaskForm.formState form))) form, app) Hlen).
  - intros Hlen. apply Nat.ltb_ge in Hlen. eexists.
    exact (valid_submit_in_flight
             (TaskForm.setFormState
                (TaskForm.mkFormState
                   (TaskForm.title (TaskForm.formState form))
                   (TaskForm.description (TaskForm.formState form))
                   None
                   (TaskForm.status (TaskForm.formState form))) form, app) Hlen).
Qed.

End TaskFormProperties.

(** ** The board *)

Section BoardProperties.

Import TaskList.

Lemma board_cards (tasks : list Task) (f : TaskListFilter) (busy : option Z) :
  Forall (fun c =>
            columnTasks c = byStatus (key (column c)) tasks
            /\ cards c
            = map (fun task =>
                     mkCard task
                            (match assignee task with
                             | Some u => user_name u
                             | None => "Unassigned"
                             end)
                            (isBusyFor busy task)
                            (actions (column c)))
                  (byStatus (key (column c)) tasks)
            /\ actions (column c)
               = match key (column c) with
                 | todo => [ mkAction "Mark in progress" in_progress ]
                 | in_progress => [ mkAction "Mark completed" done;
                                    mkAction "Move to To Do" todo ]
                 | done => [ mkAction "Reopen" in_progress ]
                 end)
         (boardColumns (TaskList tasks f busy)).
Proof. repeat constructor. Qed.

Lemma card_in_board (tasks : list Task) (f : TaskListFilter) (busy : option Z)
      (c : BoardColumn) (card : Card) :
  In c (boardColumns (TaskList tasks f busy)) -> In card (cards c) ->
  In (card_task card) tasks
  /\ Types.status (card_task card) = key (column c)
  /\ isBusy card = isBusyFor busy (card_task card)
  /\ card_actions card = actions (column c).
Proof.
  intros Hc Hcard.
  pose proof (board_cards tasks f busy) as H.
  rewrite Forall_forall in H. destruct (H c Hc) as (_ & Hcards & _).
  rewrite Hcards in Hcard. apply in_map_iff in Hcard.
  destruct Hcard as (task & <- & Hin). apply in_byStatus in Hin.
  cbn [card_task isBusy card_actions]. tauto.
Qed.

(** X17.  The status buttons of a card depend on the card's own task: a
    todo task is offered in_progress only, an in_progress task done and
    todo, a done task in_progress only.  So no card offers its task's
    current status, and no card moves a task between todo and done in one
    step. *)
Theorem offered_transitions (tasks : list Task) (f : TaskListFilter)
        (busy : option Z) (c : BoardColumn) (card : Card) :
  In c (boardColumns (TaskList tasks f busy)) -> In card (cards c) ->
  map nextStatus (card_actions card)
  = match Types.status (card_task card) with
    | todo => [in_progress]
    | in_progress => [done; todo]
    | done => [in_progress]
    end
  /\ forall a, In a (card_actions card) ->
               nextStatus a <> Types.status (card_task card)
               /\ (Types.status (card_task card) = todo -> nextStatus a <> done)
               /\ (Types.status (card_task card) = done -> nextStatus a <> todo).
Proof.
  intros Hc Hcard.
  destruct (card_in_board tasks f busy c card Hc Hcard) as (_ & Hst & _ & Hact).
  pose proof (board_cards tasks f busy) as H.
  rewrite Forall_forall in H. destruct (H c Hc) as (_ & _ & Hactions).
  rewrite Hact, Hactions, Hst.
  destruct (key (column c)); cbn; (split; [reflexivity|]).
  all: intros a Ha; repeat destruct Ha as [<-|Ha]; try contradiction; cbn.
  all: repeat split; congruence.
Qed.

(** X18.  The cards of a column are its tasks, one card each and in the
    same order, labelled with the assignee's name or "Unassigned".  A
    card's buttons are disabled exactly when the busy marker is its task's
    id: with no marker no card is disabled, and a marker disables no card
    of another id. *)
Theorem cards_and_busy_marker (tasks : list Task) (f : TaskListFilter)
        (busy : option Z) (c : BoardColumn) :
  In c (boardColumns (TaskList tasks f busy)) ->
  map card_task (cards c) = columnTasks c
  /\ Forall (fun card =>
               (isBusy card = true <-> busy = Some (id (card_task card)))
               /\ assignedLabel card
                  = match assignee (card_task card) with
                    | Some u => user_name u
                    | None => "Unassigned"
                    end)
            (cards c).
Proof.
  intros Hc.
  pose proof (board_cards tasks f busy) as H.
  rewrite Forall_forall in H. destruct (H c Hc) as (Htasks & Hcards & _).
  rewrite Hcards, Htasks. split.
  - rewrite map_map. cbn [card_task]. apply map_id.
  - apply Forall_forall. intros card Hin. apply in_map_iff in Hin.
    destruct Hin as (task & <- & _). cbn [card_task isBusy assignedLabel].
    split; [|reflexivity].
    unfold isBusyFor. destruct busy as [b|].
    + rewrite Z.eqb_eq. split; [intros ->; reflexivity|intros [= ->]; reflexivity].
    + split; discriminate.
Qed.

(** X19.  The counts shown on the three columns add up to the number of
    tasks, under every filter and busy marker, and the board is marked
    empty exactly when there is no task. *)
Theorem counts_add_up (tasks : list Task) (f : TaskListFilter) (busy : option Z) :
  let b := TaskList tasks f busy in
  totalCount b = List.length tasks
  /\ (hasTasks b = false <-> tasks = []).
Proof.
  cbv zeta. split.
  - unfold totalCount, TaskList. cbn.
    pose proof (groups_permutation tasks) as P.
    apply Permutation_length in P. rewrite !length_app in P.
    unfold byStatus in P. lia.
  - unfold TaskList. cbn [hasTasks]. destruct tasks; cbn; split; congruence.
Qed.

End BoardProperties.

(** ** Invariants of the controller *)

Section Invariants.

Import App.

Variable cast : Casts.

Lemma event_keeps_idle (net : nat -> Request -> FetchOutcome) (e : Event) (s : State) :
  idle s -> idle (final (run net (handle cast e) s)).
Proof.
  unfold idle. intros (Hb & Hs & Ha & Ht & Hu).
  destruct e; decide_with net.
  all: try discriminate.
  all: cbn; repeat split; auto.
Qed.

(** X20.  After any sequence of events, each handled to completion
    against any server, no marker is left raised: the busy marker is
    absent and the submitting and loading flags of the workspace and of
    the login form are down, whatever failed on the way. *)
Theorem markers_always_released (s : State) :
  reachableBy cast (fun _ _ => True) s -> idle s.
Proof.
  intros H. induction H as [|s e net H IH _].
  - repeat split.
  - apply event_keeps_idle. exact IH.
Qed.

Lemma event_keeps_edit_target (net : nat -> Request -> FetchOutcome)
      (e : Event) (s : State) :
  (isFormVisible s = false -> editingTask s = None) ->
  isFormVisible (final (run net (handle cast e) s)) = false ->
  editingTask (final (run net (handle cast e) s)) = None.
Proof.
  intros Hinv.
  destruct e; decide_with net.
  all: cbn; auto; try discriminate; try congruence.
  all: intros Hclosed; specialize (Hinv Hclosed); discriminate.
Qed.

(** X21.  A task is held as the edit target only while the form is open:
    in every state the events lead to, a closed form has no edit target,
    so an update is never sent from a closed form. *)
Theorem edit_target_needs_open_form (s : State) (payload : TaskPayload) :
  reachableBy cast (fun _ _ => True) s ->
  isFormVisible s = false ->
  editingTask s = None
  /\ handleUpdateTask cast payload s = Ret tt s.
Proof.
  intros H Hclosed.
  assert (Hnone : editingTask s = None).
  { revert Hclosed. induction H as [|s e net H IH _].
    - reflexivity.
    - apply event_keeps_edit_target. exact IH. }
  split; [exact Hnone|]. exec_forms. rewrite Hnone. reflexivity.
Qed.



(** X25.  The Log out button stays on offer while a status change is in
    flight.  When the logout is handled then, and the status change is
    accepted afterwards, the resumed handler still refreshes the task
    list: the run ends with no current user and with the tasks of the
    refresh's body stored, so the emptiness of the signed-out workspace
    does not survive this interleaving. *)
Theorem late_answer_after_logout (s : State) (task : Task) (next : TaskStatus)
        (net : nat -> Request -> FetchOutcome)
        (accepted listed : Response) (data : JSON) :
  currentUser s <> None ->
  ok accepted = true ->
  ok listed = true ->
  json listed = Parsed data ->
  let pending := handle cast (ClickStatus task next) s in
  exists during,
    inFlight pending = Some (patchTask task next, during)
    /\ enabled during ClickLogout
    /\ let out := final (run net (handle cast ClickLogout) during) in
       currentUser out = None
       /\ workspaceEmpty out
       /\ let late := runFrom (fun _ _ => Resolved listed) 1%nat
                              (resume pending (Resolved accepted) out) in
          requests late = [(getTasks, Resolved listed)]
          /\ currentUser (final late) = None
          /\ tasks (final late) = asTasks cast data.
Proof.
  intros Huser Hacc Hok Hjson. cbv zeta.
  pose proof (ok_not_401 _ Hacc) as Hacc401.
  pose proof (ok_not_401 _ Hok) as Hok401.
  exec_forms. eexists. split; [reflexivity|].
  split; [split; [exact Huser|exact I]|].
  unfold resume.
  destruct (net 0%nat postLogout); exec_forms.
  all: split; [reflexivity|]; split; [repeat split|].
  all: rewrite Hacc401, Hacc; exec_forms; rewrite Hok401, Hok; exec_forms;
    rewrite Hjson; exec_forms.
  all: repeat split.
Qed.

End Invariants.

(** ** One action at a time *)

Section InFlight.

Import App.

Variable cast : Casts.

Lemma busy_card_not_offered (s : State) (task : Task) (next : option TaskStatus) :
  busyTaskId s = Some (id task) -> ~ cardOffers s task next.
Proof.
  intros Hbusy (b & col & card & Hboard & Hcol & Hcard & Htask & Hfree & _).
  unfold board in Hboard.
  destruct (currentUser s); [|discriminate].
  destruct (showLoader s); [discriminate|]. injection Hboard as <-.
  destruct (card_in_board _ _ _ _ _ Hcol Hcard) as (_ & _ & Hflag & _).
  rewrite Hflag, Htask, Hbusy in Hfree. cbn in Hfree.
  rewrite Z.eqb_refl in Hfree. discriminate.
Qed.

(** X23.  In the state a handler that raises a marker publishes when it
    suspends in its request, the control that started it is not on offer:
    a login or a registration disables both submissions of the login form,
    a form submission disables the submit of the task form, a status
    change disables every button of that task's card, and a confirmed
    delete disables the confirmation.  For the cards this lasts only until
    another handler writes the marker, which is one cell for the whole
    board: a status change started from that state on a task of another
    id is suspended with the marker on its own id, and the first task's
    card is no longer marked busy although its request is still in
    flight. *)
Theorem in_flight_blocks_repeat (e : Event) (s : State) (rq : Request) (during : State) :
  inFlight (handle cast e s) = Some (rq, during) ->
  match e with
  | SubmitLogin _ | SubmitRegister _ =>
      forall d d', ~ enabled during (SubmitLogin d) /\ ~ enabled during (SubmitRegister d')
  | SubmitTaskForm _ => forall payload, ~ enabled during (SubmitTaskForm payload)
  | ClickStatus task _ =>
      (forall next, ~ enabled during (ClickStatus task next)
                    /\ ~ enabled during (ClickEdit task)
                    /\ ~ enabled during (ClickDelete task))
      /\ (forall other next',
             id other <> id task ->
             exists during',
               inFlight (handle cast (ClickStatus other next') during)
               = Some (patchTask other next', during')
               /\ busyTaskId during' = Some (id other)
               /\ TaskList.isBusyFor (busyTaskId during') task = false)
  | ClickConfirmDelete => ~ enabled during ClickConfirmDelete
  | _ => True
  end.
Proof.
  destruct e; try exact (fun _ => I); exec_forms.
  - intros [= _ <-] d0 d'. split; intros (_ & Hsub & _); discriminate Hsub.
  - intros [= _ <-] d0 d'. split; intros (_ & Hsub & _); discriminate Hsub.
  - intros [= _ <-]. split.
    + intros next.
      repeat split; intros [_ Hoffer]; revert Hoffer; apply busy_card_not_offered;
        reflexivity.
    + intros other next' Hother. eexists. split; [reflexivity|].
      split; [reflexivity|]. cbn. apply Z.eqb_neq. exact Hother.
  - destruct (editingTask s) eqn:Hedit; exec_forms; rewrite ?Hedit; exec_forms.
    all: intros [= _ <-] p [_ [_ Hsub]]; discriminate Hsub.
  - destruct (pendingDeleteTask s) as [task|] eqn:Hpending; exec_forms; [|discriminate].
    intros [= _ <-] [_ (pending & Hp & Hfree)].
    cbn in Hp. rewrite Hpending in Hp. injection Hp as <-.
    cbn in Hfree. rewrite Z.eqb_refl in Hfree. discriminate.
Qed.

End InFlight.

(** ** Scroll lock *)

Section ScrollLock.

Import App.

Lemma commit_settles (s : State) (b : Body) :
  (cleanup b = None /\ overflow b = "") \/ cleanup b = Some "" ->
  commitScrollLock s b
  = if modalOpen s then mkBody "hidden" (Some "") else mkBody "" None.
Proof.
  unfold commitScrollLock, scrollLockEffect, modalOpen.
  intros [[-> ->]| ->];
    destruct (isFormVisible s), (pendingDeleteTask s); reflexivity.
Qed.

Lemma last_cons {A} (x d : A) (l : list A) : last (x :: l) d = last l x.
Proof.
  revert x d. induction l as [|y l IH]; intros x d; [reflexivity|].
  change (last (x :: y :: l) d) with (last (y :: l) d).
  rewrite (IH y d), (IH y x). reflexivity.
Qed.

Lemma commitAll_settles (renders : list State) (s : State) (b : Body) :
  (cleanup b = None /\ overflow b = "") \/ cleanup b = Some "" ->
  commitAll renders (commitScrollLock s b)
  = if modalOpen (last renders s) then mkBody "hidden" (Some "") else mkBody "" None.
Proof.
  revert s b. induction renders as [|s' rest IH]; intros s b Hb.
  - apply commit_settles. exact Hb.
  - change (commitAll (s' :: rest) (commitScrollLock s b))
      with (commitAll rest (commitScrollLock s' (commitScrollLock s b))).
    rewrite IH.
    + rewrite last_cons. reflexivity.
    + rewrite (commit_settles s b Hb). destruct (modalOpen s); [right|left]; auto.
Qed.

(** X24.  The scroll lock follows the modals: once [App] is mounted, after
    the effect has run for any sequence of renders the body's overflow is
    "hidden" exactly when the form or the confirmation is open in the last
    one and the empty string otherwise, and unmounting leaves the empty
    string.  The overflow the page had before the mount is not put back. *)
Theorem scroll_lock_follows_modals (page : Body) (renders : list State) :
  cleanup page = None ->
  let b := commitAll renders (commitScrollLock initialState page) in
  overflow b = (if modalOpen (last renders initialState) then "hidden" else "")
  /\ overflow (unmountScrollLock b) = "".
Proof.
  intros Hpage. cbv zeta.
  assert (Hmount : commitScrollLock initialState page = mkBody "" None).
  { unfold commitScrollLock. rewrite Hpage. reflexivity. }
  rewrite Hmount.
  destruct renders as [|s rest]; [split; reflexivity|].
  change (commitAll (s :: rest) (mkBody "" None))
    with (commitAll rest (commitScrollLock s (mkBody "" None))).
  rewrite commitAll_settles by (left; split; reflexivity).
  rewrite last_cons.
  destruct (modalOpen (last rest s)); split; reflexivity.
Qed.

End ScrollLock.

(** ** The further properties at the sample data *)

(** A delete of task 7 confirmed while the server is unreachable. *)
Lemma delete_staging_witness :
  let r := run (Sample.serves []) (App.handleConfirmDelete Sample.casts) Sample.staged in
  App.pendingDeleteTask Sample.staged = Some Sample.task7
  /\ App.busyTaskId (final r) = None
  /\ App.pendingDeleteTask (final r) = Some Sample.task7
  /\ App.error (final r) = Some "Failed to fetch".
Proof.
  cbv zeta. split; [reflexivity|].
  pose proof (delete_staging Sample.casts (Sample.serves []) Sample.staged
                Sample.task7 eq_refl) as H.
  cbv zeta in H. destruct H as [Hbusy Hrest]. split; [exact Hbusy|].
  exact (proj2 Hrest).
Defined.

(** The register form with the password "abc". *)
Lemma register_validation_witness :
  registerSubmittable Filled.shortPassword
  /\ submitAuthForm Sample.casts Filled.shortPassword
     = Ret tt (AuthForm.setLocalError (Some "Password must be at least 6 characters.")
                                      (fst Filled.shortPassword),
               App.setAuthError None (snd Filled.shortPassword)).
Proof.
  assert (H : registerSubmittable Filled.shortPassword) by (repeat split).
  split; [exact H|].
  destruct (register_validation Sample.casts Filled.shortPassword H) as (_ & Hshort & _).
  apply Hshort.
  - repeat split; discriminate.
  - vm_compute. lia.
Defined.

(** A login submitted before the session check has come back. *)
Lemma submit_dropped_while_busy_witness :
  App.authLoading (snd Filled.tooEarly) = true
  /\ submitAuthForm Sample.casts Filled.tooEarly = Ret tt Filled.tooEarly.
Proof.
  split; [reflexivity|].
  apply (submit_dropped_while_busy Sample.casts Filled.tooEarly).
  right. reflexivity.
Defined.

(** The edit form of task 7 saved as it was opened. *)
Lemma unchanged_edit_round_trip_witness :
  App.editingTask Sample.editing = Some Sample.task7
  /\ exists during,
       inFlight (submitTaskForm Sample.casts Filled.editForm)
       = Some (App.putTask Sample.task7
                 (mkTaskPayload "Ship release" (Present "") None (Some todo)), during).
Proof.
  split; [reflexivity|].
  exact (proj1 (unchanged_edit_round_trip Sample.casts Sample.editing Sample.task7
                  eq_refl)).
Defined.

(** The card of task 7, a todo task. *)
Lemma offered_transitions_witness :
  In Filled.column7 (TaskList.boardColumns Filled.board7)
  /\ In Filled.card7 (TaskList.cards Filled.column7)
  /\ map TaskList.nextStatus (TaskList.card_actions Filled.card7) = [in_progress].
Proof.
  assert (Hc : In Filled.column7 (TaskList.boardColumns Filled.board7))
    by (left; reflexivity).
  assert (Hcard : In Filled.card7 (TaskList.cards Filled.column7))
    by (left; reflexivity).
  split; [exact Hc|]. split; [exact Hcard|].
  exact (proj1 (offered_transitions [ Sample.task7 ] TaskList.all None
                  Filled.column7 Filled.card7 Hc Hcard)).
Defined.

Lemma cards_and_busy_marker_witness :
  In Filled.column7 (TaskList.boardColumns Filled.board7)
  /\ map TaskList.card_task (TaskList.cards Filled.column7) = [ Sample.task7 ].
Proof.
  assert (Hc : In Filled.column7 (TaskList.boardColumns Filled.board7))
    by (left; reflexivity).
  split; [exact Hc|].
  exact (proj1 (cards_and_busy_marker [ Sample.task7 ] TaskList.all None
                  Filled.column7 Hc)).
Defined.

Lemma workspace_reached_freely :
  reachableBy Sample.casts (fun _ _ => True) Sample.workspace.
Proof.
  apply (reachableBy_weaken Sample.casts disciplined); [auto|].
  apply workspace_reached.
Qed.


Lemma markers_always_released_witness :
  reachableBy Sample.casts (fun _ _ => True) Sample.workspace
  /\ idle Sample.workspace.
Proof.
  split; [exact workspace_reached_freely|].
  exact (markers_always_released Sample.casts Sample.workspace workspace_reached_freely).
Defined.

Lemma edit_target_needs_open_form_witness :
  App.isFormVisible Sample.workspace = false
  /\ App.handleUpdateTask Sample.casts Sample.payload Sample.workspace
     = Ret tt Sample.workspace.
Proof.
  split; [reflexivity|].
  exact (proj2 (edit_target_needs_open_form Sample.casts Sample.workspace Sample.payload
                  workspace_reached_freely eq_refl)).
Defined.


(** Task 7 being moved to in_progress. *)
Lemma in_flight_blocks_repeat_witness :
  inFlight (App.handle Sample.casts (App.ClickStatus Sample.task7 in_progress)
                       Sample.workspace)
  = Some (App.patchTask Sample.task7 in_progress, Filled.moving)
  /\ ~ App.enabled Filled.moving (App.ClickDelete Sample.task7).
Proof.
  assert (H : inFlight (App.handle Sample.casts (App.ClickStatus Sample.task7 in_progress)
                                   Sample.workspace)
              = Some (App.patchTask Sample.task7 in_progress, Filled.moving))
    by reflexivity.
  split; [exact H|].
  exact (proj2 (proj2 (proj1 (in_flight_blocks_repeat Sample.casts
                                (App.ClickStatus Sample.task7 in_progress)
                                Sample.workspace _ _ H) todo))).
Defined.

(** Task 7 being moved to in_progress, the logout handled before the
    answer, and the refresh returning the task list. *)
Lemma late_answer_after_logout_witness :
  let accepted := mkResponse 200 "OK" (Parsed Sample.task7Json) in
  let listed := mkResponse 200 "OK" (Parsed (JArr [ Sample.task7Json ])) in
  let pending := App.handle Sample.casts (App.ClickStatus Sample.task7 in_progress)
                            Sample.workspace in
  let out := final (run (Sample.serves []) (App.handle Sample.casts App.ClickLogout)
                        Filled.moving) in
  let late := runFrom (fun _ _ => Resolved listed) 1%nat
                      (resume pending (Resolved accepted) out) in
  App.currentUser Sample.workspace <> None
  /\ inFlight pending = Some (App.patchTask Sample.task7 in_progress, Filled.moving)
  /\ App.currentUser (final late) = None
  /\ App.tasks (final late) = [ Sample.task7 ]
  /\ ~ workspaceEmpty (final late).
Proof.
  cbv zeta.
  assert (Huser : App.currentUser Sample.workspace <> None) by discriminate.
  destruct (late_answer_after_logout Sample.casts Sample.workspace Sample.task7
              in_progress (Sample.serves [])
              (mkResponse 200 "OK" (Parsed Sample.task7Json))
              (mkResponse 200 "OK" (Parsed (JArr [ Sample.task7Json ])))
              (JArr [ Sample.task7Json ]) Huser eq_refl eq_refl eq_refl)
    as (during & Hflight & _ & Hlate).
  cbv zeta in Hlate. injection Hflight as <-.
  destruct Hlate as (_ & _ & _ & Huser' & Htasks).
  split; [exact Huser|]. split; [reflexivity|]. split; [exact Huser'|].
  split; [exact Htasks|].
  intros (Hempty & _). vm_compute in Hempty. discriminate Hempty.
Defined.

(** A page with its own overflow, the edit form opened after the mount. *)
Lemma scroll_lock_follows_modals_witness :
  cleanup Filled.page = None
  /\ overflow (commitAll [ Sample.editing ]
                         (commitScrollLock App.initialState Filled.page)) = "hidden"
  /\ overflow (unmountScrollLock
                 (commitAll [ Sample.editing ]
                            (commitScrollLock App.initialState Filled.page))) = "".
Proof.
  split; [reflexivity|].
  exact (scroll_lock_follows_modals Filled.page [ Sample.editing ] eq_refl).
Defined.
